(** * AC Remote climate entity: controller state machine and command sender

    Shallow embedding of [ac_rest_remote_control/climate.py]
    (class [ACRemoteControl]) and the properties of its re-evaluation,
    gating, payload and preset logic.

    Modelling conventions.
    - A temperature is a Python number (int or float).  The controller only
      tests temperatures against [None], for truthiness and with [==]; they
      are modelled as rationals [Q] compared with [Qeq_bool] (numeric
      equality, so [22 == 22.0]).  NaN and infinities are outside the model.
      The one conversion the code makes, [float(...)] of the stored
      temperature attribute, is modelled on stored ints and floats: a float
      is kept, an int is rounded to the nearest double (ties to even) and
      raises [OverflowError] when it is too large.
    - [datetime] values are integers counting microseconds, [timedelta]
      values likewise; subtraction and comparison are exact.
    - The entity object is a record; a coroutine is a function in a small
      monad threading the record, a trace of observable effects (log lines,
      HTTP POSTs, host notifications) and a possible Python exception.  An
      exception leaves the mutations made before it in place, as in Python.
    - What the outside world decides during one call (the clock readings of
      [datetime.now()] and the outcome of the HTTP POST) is an argument
      [Env] of the call.
    - Calls are taken one at a time (the coroutines serialise on
      [_temp_lock]; interleavings at await points are outside the model). *)

From Stdlib Require Import ZArith QArith Bool List String Lia.
Import ListNotations.

Local Open Scope Z_scope.
Local Open Scope string_scope.

(** ** Host enumerations used by the entity *)

(** [homeassistant.components.climate.HVACMode] (a string enum). *)
Inductive HVACMode : Type :=
| HVACMode_OFF
| HVACMode_HEAT
| HVACMode_COOL
| HVACMode_HEAT_COOL
| HVACMode_AUTO
| HVACMode_DRY
| HVACMode_FAN_ONLY.

(** [homeassistant.components.climate.HVACAction]. *)
Inductive HVACAction : Type :=
| HVACAction_COOLING
| HVACAction_DEFROSTING
| HVACAction_DRYING
| HVACAction_FAN
| HVACAction_HEATING
| HVACAction_IDLE
| HVACAction_OFF
| HVACAction_PREHEATING.

Definition HVACMode_eqb (a b : HVACMode) : bool :=
  match a, b with
  | HVACMode_OFF, HVACMode_OFF
  | HVACMode_HEAT, HVACMode_HEAT
  | HVACMode_COOL, HVACMode_COOL
  | HVACMode_HEAT_COOL, HVACMode_HEAT_COOL
  | HVACMode_AUTO, HVACMode_AUTO
  | HVACMode_DRY, HVACMode_DRY
  | HVACMode_FAN_ONLY, HVACMode_FAN_ONLY => true
  | _, _ => false
  end.

(** The string value of each member; [HVACMode(s)] is the inverse lookup
    and raises [ValueError] on any other string. *)
Definition HVACMode_value (m : HVACMode) : string :=
  match m with
  | HVACMode_OFF => "off"
  | HVACMode_HEAT => "heat"
  | HVACMode_COOL => "cool"
  | HVACMode_HEAT_COOL => "heat_cool"
  | HVACMode_AUTO => "auto"
  | HVACMode_DRY => "dry"
  | HVACMode_FAN_ONLY => "fan_only"
  end.

Definition all_HVACMode : list HVACMode :=
  [HVACMode_OFF; HVACMode_HEAT; HVACMode_COOL; HVACMode_HEAT_COOL;
   HVACMode_AUTO; HVACMode_DRY; HVACMode_FAN_ONLY].

Definition HVACMode_of_value (s : string) : option HVACMode :=
  find (fun m => String.eqb (HVACMode_value m) s) all_HVACMode.

Definition PRESET_NONE : string := "none".
Definition PRESET_AWAY : string := "away".
Definition PRESET_COMFORT : string := "comfort".
Definition PRESET_ECO : string := "eco".
Definition PRESET_HOME : string := "home".
Definition PRESET_SLEEP : string := "sleep".
Definition PRESET_ACTIVITY : string := "activity".

Definition DEFAULT_TARGET_TEMPERATURE : Q := 24%Q.

(** ** Data model *)

Definition Temperature : Type := Q.
Definition datetime : Type := Z.
Definition timedelta : Type := Z.

(** [x == y] on optional numbers ([None == None], a number never equals
    [None]). *)
Definition opt_temp_eqb (a b : option Temperature) : bool :=
  match a, b with
  | None, None => true
  | Some x, Some y => Qeq_bool x y
  | _, _ => false
  end.

(** [x == m] where [x] may be [None] and [m] is an enum member. *)
Definition mode_is (x : option HVACMode) (m : HVACMode) : bool :=
  match x with
  | Some y => HVACMode_eqb y m
  | None => false
  end.

Definition opt_mode_eqb (a b : option HVACMode) : bool :=
  match a, b with
  | None, None => true
  | Some x, Some y => HVACMode_eqb x y
  | _, _ => false
  end.

(** The dataclass [ACState]. *)
Record ACState : Type := mkACState {
  temperature : option Temperature;
  mode : option HVACMode
}.

(** The generated [__eq__]: the field tuples are compared. *)
Definition ACState_eqb (a b : ACState) : bool :=
  opt_temp_eqb (temperature a) (temperature b)
  && opt_mode_eqb (mode a) (mode b).

(** [last != cur] where [last] may still be [None]: [None] differs from
    every [ACState]. *)
Definition ACState_ne (last : option ACState) (cur : ACState) : bool :=
  match last with
  | None => true
  | Some l => negb (ACState_eqb l cur)
  end.

(** The JSON body of a command. *)
Record Payload : Type := mkPayload {
  pl_power_toggle : bool;
  pl_power : bool;
  pl_mode : string;
  pl_fan : string;
  pl_temperature : option Temperature
}.

(** The attributes of [ACRemoteControl] the controller logic reads or
    writes.  Display-only attributes (unit, unique id, precision, step,
    feature flags) and the never-read [_last_send_state] and
    [_test_counter] are left out.  [_presets] is an insertion-ordered
    dict: an association list with distinct keys. *)
Record ACRemoteControl : Type := mkACRemoteControl {
  _attr_name : string;
  ac_mode : option bool;
  min_cycle_duration : option timedelta;
  _keep_alive : option timedelta;
  _hvac_mode : option HVACMode;
  _saved_target_temp : option Temperature;
  _attr_hvac_modes : list HVACMode;
  _active : bool;
  _min_temp : option Temperature;
  _max_temp : option Temperature;
  _attr_preset_mode : string;
  _target_temp : option Temperature;
  _attr_preset_modes : list string;
  _presets : list (string * Temperature);
  _is_last_send_succeed : bool;
  _last_control_action_time : datetime;
  _last_state : option ACState;
  _rest_url : string;
  _username : string;
  _password : string
}.

(** Attribute assignments. *)
Definition set_hvac_mode (v : option HVACMode) (s : ACRemoteControl) :=
  mkACRemoteControl (_attr_name s) (ac_mode s) (min_cycle_duration s)
    (_keep_alive s) v (_saved_target_temp s) (_attr_hvac_modes s)
    (_active s) (_min_temp s) (_max_temp s) (_attr_preset_mode s)
    (_target_temp s) (_attr_preset_modes s) (_presets s)
    (_is_last_send_succeed s) (_last_control_action_time s) (_last_state s)
    (_rest_url s) (_username s) (_password s).

Definition set_saved_target_temp (v : option Temperature) (s : ACRemoteControl) :=
  mkACRemoteControl (_attr_name s) (ac_mode s) (min_cycle_duration s)
    (_keep_alive s) (_hvac_mode s) v (_attr_hvac_modes s)
    (_active s) (_min_temp s) (_max_temp s) (_attr_preset_mode s)
    (_target_temp s) (_attr_preset_modes s) (_presets s)
    (_is_last_send_succeed s) (_last_control_action_time s) (_last_state s)
    (_rest_url s) (_username s) (_password s).

Definition set_active (v : bool) (s : ACRemoteControl) :=
  mkACRemoteControl (_attr_name s) (ac_mode s) (min_cycle_duration s)
    (_keep_alive s) (_hvac_mode s) (_saved_target_temp s) (_attr_hvac_modes s)
    v (_min_temp s) (_max_temp s) (_attr_preset_mode s)
    (_target_temp s) (_attr_preset_modes s) (_presets s)
    (_is_last_send_succeed s) (_last_control_action_time s) (_last_state s)
    (_rest_url s) (_username s) (_password s).

Definition set_attr_preset_mode (v : string) (s : ACRemoteControl) :=
  mkACRemoteControl (_attr_name s) (ac_mode s) (min_cycle_duration s)
    (_keep_alive s) (_hvac_mode s) (_saved_target_temp s) (_attr_hvac_modes s)
    (_active s) (_min_temp s) (_max_temp s) v
    (_target_temp s) (_attr_preset_modes s) (_presets s)
    (_is_last_send_succeed s) (_last_control_action_time s) (_last_state s)
    (_rest_url s) (_username s) (_password s).

Definition set_target_temp (v : option Temperature) (s : ACRemoteControl) :=
  mkACRemoteControl (_attr_name s) (ac_mode s) (min_cycle_duration s)
    (_keep_alive s) (_hvac_mode s) (_saved_target_temp s) (_attr_hvac_modes s)
    (_active s) (_min_temp s) (_max_temp s) (_attr_preset_mode s)
    v (_attr_preset_modes s) (_presets s)
    (_is_last_send_succeed s) (_last_control_action_time s) (_last_state s)
    (_rest_url s) (_username s) (_password s).

Definition set_is_last_send_succeed (v : bool) (s : ACRemoteControl) :=
  mkACRemoteControl (_attr_name s) (ac_mode s) (min_cycle_duration s)
    (_keep_alive s) (_hvac_mode s) (_saved_target_temp s) (_attr_hvac_modes s)
    (_active s) (_min_temp s) (_max_temp s) (_attr_preset_mode s)
    (_target_temp s) (_attr_preset_modes s) (_presets s)
    v (_last_control_action_time s) (_last_state s)
    (_rest_url s) (_username s) (_password s).

Definition set_last_control_action_time (v : datetime) (s : ACRemoteControl) :=
  mkACRemoteControl (_attr_name s) (ac_mode s) (min_cycle_duration s)
    (_keep_alive s) (_hvac_mode s) (_saved_target_temp s) (_attr_hvac_modes s)
    (_active s) (_min_temp s) (_max_temp s) (_attr_preset_mode s)
    (_target_temp s) (_attr_preset_modes s) (_presets s)
    (_is_last_send_succeed s) v (_last_state s)
    (_rest_url s) (_username s) (_password s).

Definition set_last_state (v : option ACState) (s : ACRemoteControl) :=
  mkACRemoteControl (_attr_name s) (ac_mode s) (min_cycle_duration s)
    (_keep_alive s) (_hvac_mode s) (_saved_target_temp s) (_attr_hvac_modes s)
    (_active s) (_min_temp s) (_max_temp s) (_attr_preset_mode s)
    (_target_temp s) (_attr_preset_modes s) (_presets s)
    (_is_last_send_succeed s) (_last_control_action_time s) v
    (_rest_url s) (_username s) (_password s).

(** ** Effects, exceptions and the coroutine monad *)

Inductive Exception : Type :=
| ValueError
| AttributeError
| KeyError
| OverflowError.

Inductive LogLevel : Type := INFO | WARNING | ERROR.

(** What a call does to the outside world, in order.  A log line is
    recorded by its level and format string. *)
Inductive Effect : Type :=
| Log (lvl : LogLevel) (fmt : string)
| Post (url user password : string) (payload : Payload)
| WriteHaState
| TrackTimeInterval (interval : timedelta).

Inductive Outcome (A : Type) : Type :=
| Returned (a : A)
| Raised (e : Exception).
Arguments Returned {A} a.
Arguments Raised {A} e.

Record Run (A : Type) : Type := mkRun {
  outcome : Outcome A;
  final : ACRemoteControl;
  effects : list Effect
}.
Arguments mkRun {A} _ _ _.
Arguments outcome {A} _.
Arguments final {A} _.
Arguments effects {A} _.

Definition M (A : Type) : Type := ACRemoteControl -> Run A.

Definition ret {A} (a : A) : M A := fun s => mkRun (Returned a) s [].

Definition bind {A B} (m : M A) (k : A -> M B) : M B :=
  fun s =>
    match m s with
    | mkRun (Returned a) s1 tr1 =>
        match k a s1 with
        | mkRun o s2 tr2 => mkRun o s2 (tr1 ++ tr2)%list
        end
    | mkRun (Raised e) s1 tr1 => mkRun (Raised e) s1 tr1
    end.

Definition get : M ACRemoteControl := fun s => mkRun (Returned s) s [].
Definition modify (f : ACRemoteControl -> ACRemoteControl) : M unit :=
  fun s => mkRun (Returned tt) (f s) [].
Definition emit (e : Effect) : M unit := fun s => mkRun (Returned tt) s [e].
Definition raise {A} (e : Exception) : M A := fun s => mkRun (Raised e) s [].

Declare Scope py_scope.
Delimit Scope py_scope with py.
Notation "x <- m ;; k" := (bind m (fun x => k))
  (at level 61, m at next level, right associativity) : py_scope.
Notation "m ;; k" := (bind m (fun _ => k))
  (at level 61, right associativity) : py_scope.
Local Open Scope py_scope.

(** The HTTP POSTs of a trace, in order. *)
Fixpoint posts (tr : list Effect) : list Payload :=
  match tr with
  | [] => []
  | Post _ _ _ p :: tr' => p :: posts tr'
  | _ :: tr' => posts tr'
  end.

(** What the world decides during one call: the reading of
    [datetime.now()] at the min-cycle check, whether the POST succeeds
    (2xx before the timeout), and the reading of [datetime.now()] after
    the POST. *)
Record Env : Type := mkEnv {
  now_gate : datetime;
  post_ok : bool;
  now_sent : datetime
}.

(** ** Properties of the entity *)

Definition hvac_mode (self : ACRemoteControl) : option HVACMode :=
  _hvac_mode self.

Definition target_temperature (self : ACRemoteControl) : option Temperature :=
  _target_temp self.

Definition preset_modes (self : ACRemoteControl) : list string :=
  _attr_preset_modes self.

Definition hvac_action (self : ACRemoteControl) : HVACAction :=
  if negb (_is_last_send_succeed self) then HVACAction_IDLE
  else if mode_is (_hvac_mode self) HVACMode_HEAT then HVACAction_HEATING
  else if mode_is (_hvac_mode self) HVACMode_COOL then HVACAction_COOLING
  else HVACAction_OFF.

Definition _is_device_active (self : ACRemoteControl) : bool := true.

(** Truthiness of an optional [timedelta]: [None] and the zero duration
    are false. *)
Definition timedelta_truthy (d : option timedelta) : bool :=
  match d with
  | Some x => negb (x =? 0)%Z
  | None => false
  end.

Definition is_None {A} (o : option A) : bool :=
  match o with None => true | Some _ => false end.

(** ** The command sender *)

Definition _send_rest_command (ok : bool) (payload : Payload) : M unit :=
  self <- get ;;
  emit (Log INFO "Sending request: [%s]: %s") ;;
  emit (Post (_rest_url self) (_username self) (_password self) payload) ;;
  if ok then modify (set_is_last_send_succeed true)
  else
    emit (Log WARNING "A requests error occurred: %s") ;;
    modify (set_is_last_send_succeed false).

Definition _async_control_heating_command_sender (env : Env) : M unit :=
  self <- get ;;
  let cur_state := mkACState (target_temperature self) (hvac_mode self) in
  if ACState_ne (_last_state self) cur_state then
    emit (Log INFO "Something changed: %s") ;;
    match _last_state self with
    | None => raise AttributeError
    | Some last =>
        let power_toggle :=
          (mode_is (mode last) HVACMode_OFF
             && negb (mode_is (mode cur_state) HVACMode_OFF))
          || (negb (mode_is (mode last) HVACMode_OFF)
                && mode_is (mode cur_state) HVACMode_OFF) in
        let payload :=
          mkPayload power_toggle
            (negb (mode_is (_hvac_mode self) HVACMode_OFF))
            (if mode_is (_hvac_mode self) HVACMode_COOL
             then "COOL_MODE" else "HEAT_MODE")
            "FAN_AUTO"
            (target_temperature self) in
        _send_rest_command (post_ok env) payload ;;
        modify (set_last_state (Some cur_state)) ;;
        modify (set_last_control_action_time (now_sent env))
    end
  else ret tt.

(** ** Re-evaluation *)

Definition _async_control_heating
    (time : option datetime) (force : bool) (env : Env) : M unit :=
  self <- get ;;
  (if negb (_active self) && negb (is_None (_target_temp self)) then
     modify (set_active true) ;;
     emit (Log INFO "Obtained current and target temperature. AC Remote  active. %s")
   else ret tt) ;;
  self <- get ;;
  if negb (_active self) then ret tt
  else
    let send :=
      if _is_device_active self
      then _async_control_heating_command_sender env
      else ret tt in
    if force && is_None time && timedelta_truthy (min_cycle_duration self) then
      if _is_device_active self then
        let long_enough :=
          match min_cycle_duration self with
          | Some d => (now_gate env - _last_control_action_time self >? d)%Z
          | None => false
          end in
        if negb long_enough then ret tt else send
      else send
    else send.

(** The keep-alive timer: the host's interval tracker calls the
    re-evaluation with the current time as its only argument. *)
Definition keep_alive_tick (now : datetime) (env : Env) : M unit :=
  _async_control_heating (Some now) false env.

(** ** User-facing setters *)

Definition async_set_hvac_mode (hvac_mode : HVACMode) (env : Env) : M unit :=
  if HVACMode_eqb hvac_mode HVACMode_HEAT then
    modify (set_hvac_mode (Some HVACMode_HEAT)) ;;
    _async_control_heating None true env ;;
    emit WriteHaState
  else if HVACMode_eqb hvac_mode HVACMode_COOL then
    modify (set_hvac_mode (Some HVACMode_COOL)) ;;
    _async_control_heating None true env ;;
    emit WriteHaState
  else if HVACMode_eqb hvac_mode HVACMode_OFF then
    modify (set_hvac_mode (Some HVACMode_OFF)) ;;
    _async_control_heating None true env ;;
    emit WriteHaState
  else
    emit (Log ERROR "Unrecognized hvac mode: %s").

(** [temperature] is [kwargs.get(ATTR_TEMPERATURE)]. *)
Definition async_set_temperature
    (temperature : option Temperature) (env : Env) : M unit :=
  match temperature with
  | None => ret tt
  | Some t =>
      modify (set_target_temp (Some t)) ;;
      _async_control_heating None true env ;;
      emit WriteHaState
  end.

(** [d[k]] on a dict. *)
Fixpoint dict_get {V : Type} (k : string) (d : list (string * V)) : option V :=
  match d with
  | [] => None
  | (k', v) :: d' => if String.eqb k k' then Some v else dict_get k d'
  end.

Definition dict_keys {V : Type} (d : list (string * V)) : list string :=
  map fst d.

Definition dict_values {V : Type} (d : list (string * V)) : list V :=
  map snd d.

(** [x in l] on a list of strings. *)
Definition str_in (x : string) (l : list string) : bool :=
  existsb (String.eqb x) l.

Definition async_set_preset_mode (preset_mode : string) (env : Env) : M unit :=
  emit (Log INFO "Setting new preset mode: %s") ;;
  self <- get ;;
  if negb (str_in preset_mode (preset_modes self)) then raise ValueError
  else if String.eqb preset_mode (_attr_preset_mode self) then ret tt
  else if String.eqb preset_mode PRESET_NONE then
    modify (set_attr_preset_mode PRESET_NONE) ;;
    modify (fun s => set_target_temp (_saved_target_temp s) s) ;;
    _async_control_heating None false env ;;
    emit WriteHaState
  else
    (if String.eqb (_attr_preset_mode self) PRESET_NONE
     then modify (fun s => set_saved_target_temp (_target_temp s) s)
     else ret tt) ;;
    modify (set_attr_preset_mode preset_mode) ;;
    match dict_get preset_mode (_presets self) with
    | None => raise KeyError
    | Some v => modify (set_target_temp (Some v))
    end ;;
    _async_control_heating None false env ;;
    emit WriteHaState.

(** ** Construction and start-up *)

(** Truthiness of an optional number: [None] and zero are false. *)
Definition temp_truthy (t : option Temperature) : bool :=
  match t with
  | Some x => negb (Qeq_bool x 0)
  | None => false
  end.

Definition opt_bool_truthy (b : option bool) : bool :=
  match b with
  | Some true => true
  | _ => false
  end.

(** [__init__]; [now] is the reading of [datetime.now()]. *)
Definition __init__
    (name : string)
    (min_temp max_temp target_temp : option Temperature)
    (ac_mode : option bool)
    (min_cycle_duration keep_alive : option timedelta)
    (initial_hvac_mode : option HVACMode)
    (presets : list (string * Temperature))
    (rest_url username password : string)
    (now : datetime) : ACRemoteControl :=
  {| _attr_name := name;
     ac_mode := ac_mode;
     min_cycle_duration := min_cycle_duration;
     _keep_alive := keep_alive;
     _hvac_mode := initial_hvac_mode;
     _saved_target_temp :=
       if temp_truthy target_temp then target_temp
       else hd_error (dict_values presets);
     _attr_hvac_modes :=
       if opt_bool_truthy ac_mode
       then [HVACMode_COOL; HVACMode_OFF; HVACMode_HEAT]
       else [HVACMode_HEAT; HVACMode_OFF];
     _active := false;
     _min_temp := min_temp;
     _max_temp := max_temp;
     _attr_preset_mode := PRESET_NONE;
     _target_temp := target_temp;
     _attr_preset_modes :=
       if negb (Nat.eqb (List.length presets) 0)
       then PRESET_NONE :: dict_keys presets
       else [PRESET_NONE];
     _presets := presets;
     _is_last_send_succeed := false;
     _last_control_action_time := now;
     _last_state := None;
     _rest_url := rest_url;
     _username := username;
     _password := password |}.

(** A number as the host stores it: a Python int or a (finite) float. *)
Inductive Number : Type :=
| PyInt (z : Z)
| PyFloat (x : Temperature).

(** [float(z)] of an int, as the integer the resulting double is worth; an
    int below 2^53 in magnitude is exact, a larger one keeps its 53 leading
    bits, rounded to nearest with ties to even; [None] is the
    [OverflowError] of an int that rounds to 2^1024 or more. *)
Definition double_of_int (z : Z) : option Z :=
  let a := Z.abs z in
  if (a <? 2 ^ 53)%Z then Some z
  else
    let e := (Z.log2 a - 52)%Z in
    let q := Z.shiftr a e in
    let rem := (a - Z.shiftl q e)%Z in
    let half := (2 ^ (e - 1))%Z in
    let q' := if (rem >? half)%Z || ((rem =? half)%Z && Z.odd q)
              then (q + 1)%Z else q in
    let r := Z.shiftl q' e in
    if (2 ^ 1024 <=? r)%Z then None else Some (Z.sgn z * r)%Z.

(** [float(n)]; [None] is [OverflowError]. *)
Definition float (n : Number) : option Temperature :=
  match n with
  | PyFloat x => Some x
  | PyInt z =>
      match double_of_int z with
      | Some d => Some (inject_Z d)
      | None => None
      end
  end.

(** The state the host persisted for the entity: its state string and the
    two attributes the entity restores.  The stored temperature, when
    there is one, is a number. *)
Record State : Type := mkState {
  state : string;
  attr_temperature : option Number;
  attr_preset_mode : option string
}.

Definition opt_str_in (x : option string) (l : list string) : bool :=
  match x with
  | Some p => str_in p l
  | None => false
  end.

(** [old_state] is the result of [async_get_last_state()]. *)
Definition async_added_to_hass (old_state : option State) : M unit :=
  self <- get ;;
  (match _keep_alive self with
   | Some d => if negb (d =? 0)%Z then emit (TrackTimeInterval d) else ret tt
   | None => ret tt
   end) ;;
  (match old_state with
   | Some old =>
       (if is_None (_target_temp self) then
          match attr_temperature old with
          | None =>
              modify (set_target_temp (Some DEFAULT_TARGET_TEMPERATURE)) ;;
              emit (Log WARNING "Undefined target temperature, falling back to %s")
          | Some t =>
              match float t with
              | Some x => modify (set_target_temp (Some x))
              | None => raise OverflowError
              end
          end
        else ret tt) ;;
       (if negb (Nat.eqb (List.length (preset_modes self)) 0)
           && opt_str_in (attr_preset_mode old) (preset_modes self)
        then
          match attr_preset_mode old with
          | Some p => modify (set_attr_preset_mode p)
          | None => ret tt
          end
        else ret tt) ;;
       (if is_None (_hvac_mode self) && negb (String.eqb (state old) "") then
          match HVACMode_of_value (state old) with
          | Some m => modify (set_hvac_mode (Some m))
          | None => raise ValueError
          end
        else ret tt)
   | None =>
       (if is_None (_target_temp self)
        then modify (set_target_temp (Some DEFAULT_TARGET_TEMPERATURE))
        else ret tt) ;;
       emit (Log WARNING "No previously saved temperature, setting to %s")
   end) ;;
  self <- get ;;
  (if is_None (_hvac_mode self)
   then modify (set_hvac_mode (Some HVACMode_OFF))
   else ret tt) ;;
  modify (fun s =>
            set_last_state
              (Some (mkACState (target_temperature s) (hvac_mode s))) s).

(** ** The entity as a machine driven by the host *)

Inductive Call : Type :=
| AddedToHass (old_state : option State)
| SetHvacMode (hvac_mode : HVACMode)
| SetTemperature (temperature : option Temperature)
| SetPresetMode (preset_mode : string)
| KeepAlive (now : datetime).

Definition call (c : Call) (env : Env) : M unit :=
  match c with
  | AddedToHass old => async_added_to_hass old
  | SetHvacMode m => async_set_hvac_mode m env
  | SetTemperature t => async_set_temperature t env
  | SetPresetMode p => async_set_preset_mode p env
  | KeepAlive now => keep_alive_tick now env
  end.

(** A sequence of calls; an exception ends its call only, the entity
    lives on in the state the call left. *)
Fixpoint run_calls (cs : list (Call * Env)) (s : ACRemoteControl)
  : ACRemoteControl * list Effect :=
  match cs with
  | [] => (s, [])
  | (c, env) :: cs' =>
      let r := call c env s in
      let '(s', tr) := run_calls cs' (final r) in
      (s', (effects r ++ tr)%list)
  end.

(** ** Views of the source used in the statements

    Names for what the routines compute on the way; the equations
    [command_sender_eq] and [reeval_eq] below tie them to the routines. *)

(** The current logical state: what the sender builds as [cur_state]. *)
Definition cur_state (self : ACRemoteControl) : ACState :=
  mkACState (target_temperature self) (hvac_mode self).

(** Time elapsed since the last action, as the min-cycle check reads it. *)
Definition elapsed (env : Env) (self : ACRemoteControl) : timedelta :=
  now_gate env - _last_control_action_time self.

(** The first test of the re-evaluation: the machine becomes active on
    the first call that finds a target temperature. *)
Definition activates (self : ACRemoteControl) : bool :=
  negb (_active self) && negb (is_None (_target_temp self)).

Definition activated (self : ACRemoteControl) : ACRemoteControl :=
  if activates self then set_active true self else self.

Definition activation_log (self : ACRemoteControl) : list Effect :=
  if activates self
  then [Log INFO "Obtained current and target temperature. AC Remote  active. %s"]
  else [].

(** The min-cycle check holds the command back. *)
Definition gated (time : option datetime) (force : bool) (env : Env)
    (self : ACRemoteControl) : bool :=
  force && is_None time &&
  match min_cycle_duration self with
  | Some d => negb (d =? 0)%Z && negb (elapsed env self >? d)%Z
  | None => false
  end.

(** The payload the sender builds against the last-sent state [last]. *)
Definition command_payload (last : ACState) (self : ACRemoteControl) : Payload :=
  mkPayload
    ((mode_is (mode last) HVACMode_OFF && negb (mode_is (_hvac_mode self) HVACMode_OFF))
     || (negb (mode_is (mode last) HVACMode_OFF) && mode_is (_hvac_mode self) HVACMode_OFF))
    (negb (mode_is (_hvac_mode self) HVACMode_OFF))
    (if mode_is (_hvac_mode self) HVACMode_COOL then "COOL_MODE" else "HEAT_MODE")
    "FAN_AUTO"
    (_target_temp self).

(** The trace and the state a send leaves. *)
Definition send_effects (ok : bool) (self : ACRemoteControl) (p : Payload)
  : list Effect :=
  Log INFO "Sending request: [%s]: %s"
  :: Post (_rest_url self) (_username self) (_password self) p
  :: (if ok then [] else [Log WARNING "A requests error occurred: %s"]).

Definition sent_state (env : Env) (self : ACRemoteControl) : ACRemoteControl :=
  set_last_control_action_time (now_sent env)
    (set_last_state (Some (cur_state self))
       (set_is_last_send_succeed (post_ok env) self)).

(** "Exactly one of [P] and [Q] holds." *)
Definition exactly_one (P Q : Prop) : Prop := (P /\ ~ Q) \/ (~ P /\ Q).

(** ** A sample installation

    One preset, a ten-second minimum cycle and a one-minute keep-alive
    (times in microseconds), created at 1 s and added to a host that has
    no stored state for it. *)
Definition demo_new : ACRemoteControl :=
  __init__ "AC Remote" None None (Some 22%Q) (Some true)
    (Some 10000000) (Some 60000000) None [(PRESET_ECO, 18%Q)]
    "http://ac.local/control" "user" "secret" 1000000.

Definition demo : ACRemoteControl := final (async_added_to_hass None demo_new).

(** The sample entity with a target of 23 degrees not yet sent. *)
Definition demo_pending : ACRemoteControl := set_target_temp (Some 23%Q) demo.

(** Moments of the sample timeline: a user action 5 s and one 12 s after
    the last action (the POST failing at the second), and the keep-alive
    tick at 61 s. *)
Definition at_5s : Env := mkEnv 5000000 true 5000001.
Definition at_12s : Env := mkEnv 12000000 true 12000001.
Definition at_12s_failing : Env := mkEnv 12000000 false 12000001.
Definition at_61s : Env := mkEnv 61000000 true 61000001.

(** The reading of the keep-alive timer as a retry path: a send that
    failed on the network is sent again by the next keep-alive tick,
    the desired state being what it was. *)
Definition keep_alive_retries
    (s : ACRemoteControl) (env : Env) (now : datetime) (env' : Env) : Prop :=
  let r := _async_control_heating None true env s in
  posts (effects r) <> [] -> _is_last_send_succeed (final r) = false ->
  posts (effects (keep_alive_tick now env' (final r))) <> [].

(** A call fails with an error when it raises. *)
Definition raises {A : Type} (r : Run A) : Prop :=
  exists e : Exception, outcome r = Raised e.

(** [_attr_preset_modes] lists the sentinel and then the names of the
    preset table, as [__init__] sets it. *)
Definition preset_modes_consistent (self : ACRemoteControl) : Prop :=
  preset_modes self = PRESET_NONE :: dict_keys (_presets self).

(** [I] is kept by [m]: it holds of the state [m] leaves, whether [m]
    returns or raises. *)
Definition keeps (I : ACRemoteControl -> Prop) {A : Type} (m : M A) : Prop :=
  forall s, I s -> I (final (m s)).

(** A run of keep-alive ticks, each with its time and its environment. *)
Definition keep_alive_ticks (ticks : list (datetime * Env)) : list (Call * Env) :=
  map (fun te => (KeepAlive (fst te), snd te)) ticks.

(** The gating invariant behind the construction-time clock. *)
Definition clock_not_before (tc : datetime) (D : timedelta)
    (self : ACRemoteControl) : Prop :=
  min_cycle_duration self = Some D /\ tc <= _last_control_action_time self.

(** ** Platform set-up *)

Definition CONF_MIN_TEMP : string := "min_temp".
Definition CONF_MAX_TEMP : string := "max_temp".
Definition CONF_TARGET_TEMP : string := "target_temp".

(** The presets the platform knows, in the order of the tuple
    [CONF_PRESETS] is built from. *)
Definition PRESET_NAMES : list string :=
  [PRESET_AWAY; PRESET_COMFORT; PRESET_ECO; PRESET_HOME; PRESET_SLEEP;
   PRESET_ACTIVITY].

(** [CONF_PRESETS]: preset name to configuration key [f"{p}_temp"]. *)
Definition CONF_PRESETS : list (string * string) :=
  map (fun p => (p, p ++ "_temp")) PRESET_NAMES.

(** A configuration that passed [PLATFORM_SCHEMA], its entries grouped by
    the type the schema gives them; [conf_floats] holds the number-valued
    entries present ([min_temp], [max_temp], [target_temp] and the
    [<preset>_temp] keys), so that [key in config] and [config[key]] on
    such a key are a lookup in it. *)
Record Config : Type := mkConfig {
  conf_name : string;
  conf_floats : list (string * Temperature);
  conf_ac_mode : option bool;
  conf_min_cycle_duration : option timedelta;
  conf_keep_alive : option timedelta;
  conf_initial_hvac_mode : option HVACMode;
  conf_rest_url : string;
  conf_rest_username : string;
  conf_rest_password : string
}.

(** [{key: config[value] for key, value in items if value in config}]. *)
Fixpoint presets_from (floats : list (string * Temperature))
    (items : list (string * string)) : list (string * Temperature) :=
  match items with
  | [] => []
  | (key, value) :: items' =>
      match dict_get value floats with
      | Some t => (key, t) :: presets_from floats items'
      | None => presets_from floats items'
      end
  end.

(** [async_setup_platform], by the entity it hands to
    [async_add_entities]; [now] is the clock reading of the constructor. *)
Definition async_setup_platform (config : Config) (now : datetime)
  : ACRemoteControl :=
  __init__ (conf_name config)
    (dict_get CONF_MIN_TEMP (conf_floats config))
    (dict_get CONF_MAX_TEMP (conf_floats config))
    (dict_get CONF_TARGET_TEMP (conf_floats config))
    (conf_ac_mode config)
    (conf_min_cycle_duration config)
    (conf_keep_alive config)
    (conf_initial_hvac_mode config)
    (presets_from (conf_floats config) CONF_PRESETS)
    (conf_rest_url config)
    (conf_rest_username config)
    (conf_rest_password config)
    now.

(** ** Views of the calls *)

(** A setter's tail: effects [pre], then the re-evaluation run [r], then
    [async_write_ha_state()] unless [r] raised. *)
Definition then_notify (pre : list Effect) (r : Run unit) : Run unit :=
  match outcome r with
  | Returned _ =>
      mkRun (Returned tt) (final r) (pre ++ effects r ++ [WriteHaState])
  | Raised e => mkRun (Raised e) (final r) (pre ++ effects r)
  end.

(** The calls the host makes once the entity runs. *)
Definition runtime (c : Call) : Prop :=
  match c with
  | AddedToHass _ => False
  | _ => True
  end.

(** The state a call has after its own assignments, and whether it goes
    on to the re-evaluation from there. *)
Definition prepared (c : Call) (s : ACRemoteControl) : ACRemoteControl * bool :=
  match c with
  | AddedToHass _ => (s, false)
  | SetHvacMode m =>
      match m with
      | HVACMode_HEAT | HVACMode_COOL | HVACMode_OFF =>
          (set_hvac_mode (Some m) s, true)
      | _ => (s, false)
      end
  | SetTemperature None => (s, false)
  | SetTemperature (Some t) => (set_target_temp (Some t) s, true)
  | SetPresetMode p =>
      if negb (str_in p (preset_modes s)) then (s, false)
      else if String.eqb p (_attr_preset_mode s) then (s, false)
      else if String.eqb p PRESET_NONE then
        (set_target_temp (_saved_target_temp s)
           (set_attr_preset_mode PRESET_NONE s), true)
      else
        let s1 := if String.eqb (_attr_preset_mode s) PRESET_NONE
                  then set_saved_target_temp (_target_temp s) s else s in
        match dict_get p (_presets s) with
        | Some v => (set_target_temp (Some v) (set_attr_preset_mode p s1), true)
        | None => (set_attr_preset_mode p s1, false)
        end
  | KeepAlive _ => (s, true)
  end.

(** The arguments a call gives to the re-evaluation. *)
Definition call_time (c : Call) : option datetime :=
  match c with
  | KeepAlive now => Some now
  | _ => None
  end.

Definition call_force (c : Call) : bool :=
  match c with
  | SetHvacMode _ | SetTemperature _ => true
  | _ => false
  end.

(** The requests of a trace, with their destination and credentials. *)
Definition is_post_to (url user password : string) (e : Effect) : Prop :=
  match e with
  | Post url' user' password' _ =>
      url' = url /\ user' = user /\ password' = password
  | _ => True
  end.

(** The entity has been started: a last-sent state exists, the target
    temperature is defined, and a saved temperature is there to return
    to whenever a preset is on. *)
Definition started (s : ACRemoteControl) : Prop :=
  _last_state s <> None /\ _target_temp s <> None /\
  (_attr_preset_mode s = PRESET_NONE \/ _saved_target_temp s <> None) /\
  preset_modes_consistent s.

(** The toggles of a run of payloads follow its [power] fields: starting
    from [power], each [power_toggle] is set exactly when [power]
    changes. *)
Fixpoint toggles_track (power : bool) (ps : list Payload) : Prop :=
  match ps with
  | [] => True
  | p :: ps' =>
      xorb power (pl_power_toggle p) = pl_power p
      /\ toggles_track (pl_power p) ps'
  end.

(** The power the last-sent state stands for. *)
Definition power_of (last : ACState) : bool :=
  negb (mode_is (mode last) HVACMode_OFF).

Definition no_post (e : Effect) : Prop :=
  match e with
  | Post _ _ _ _ => False
  | _ => True
  end.

(** Every effect of [m] satisfies [Q]. *)
Definition emits (Q : Effect -> Prop) {A : Type} (m : M A) : Prop :=
  forall s, Forall Q (effects (m s)).

(** ** Views of the start-up *)

(** The target temperature the start-up settles on; [None] when
    [float(...)] of the stored temperature raises. *)
Definition startup_target (s : ACRemoteControl) (old_state : option State)
  : option Temperature :=
  match _target_temp s with
  | Some t => Some t
  | None =>
      match old_state with
      | Some old =>
          match attr_temperature old with
          | Some n => float n
          | None => Some DEFAULT_TARGET_TEMPERATURE
          end
      | None => Some DEFAULT_TARGET_TEMPERATURE
      end
  end.

(** What the start-up needs of the stored state can be used: with no
    target temperature configured the stored temperature converts, and
    with no initial mode configured the stored state string, unless it is
    empty, is the value of an HVAC mode. *)
Definition stored_temperature_converts
    (s : ACRemoteControl) (old_state : option State) : Prop :=
  _target_temp s = None ->
  forall old n, old_state = Some old -> attr_temperature old = Some n ->
                float n <> None.

Definition stored_mode_converts
    (s : ACRemoteControl) (old_state : option State) : Prop :=
  _hvac_mode s = None ->
  forall old, old_state = Some old -> state old <> "" ->
              HVACMode_of_value (state old) <> None.

(** The start-up initialises the last-sent state to the current (target
    temperature, hvac mode) pair. *)
Definition startup_initialises_last_state
    (s0 : ACRemoteControl) (old_state : option State) : Prop :=
  let s := final (async_added_to_hass old_state s0) in
  _last_state s = Some (cur_state s).

(** The preset mode after the start-up. *)
Definition startup_preset (s : ACRemoteControl) (old_state : option State)
  : string :=
  match old_state with
  | Some old =>
      match attr_preset_mode old with
      | Some p => if str_in p (preset_modes s) then p else _attr_preset_mode s
      | None => _attr_preset_mode s
      end
  | None => _attr_preset_mode s
  end.

(** The mode after the start-up; [None] when [HVACMode(old_state.state)]
    raises. *)
Definition startup_mode (s : ACRemoteControl) (old_state : option State)
  : option HVACMode :=
  match _hvac_mode s with
  | Some m => Some m
  | None =>
      match old_state with
      | Some old =>
          if String.eqb (state old) "" then Some HVACMode_OFF
          else HVACMode_of_value (state old)
      | None => Some HVACMode_OFF
      end
  end.

(** ** Further samples *)

(** The sample installation with two presets. *)
Definition demo_two_presets : ACRemoteControl :=
  final (async_added_to_hass None
           (__init__ "AC Remote" None None (Some 22%Q) (Some true)
              (Some 10000000) (Some 60000000) None
              [(PRESET_AWAY, 16%Q); (PRESET_ECO, 18%Q)]
              "http://ac.local/control" "user" "secret" 1000000)).

(** The sample entity with the eco preset on. *)
Definition demo_eco : ACRemoteControl :=
  final (async_set_preset_mode PRESET_ECO at_12s demo).

(** A stored state whose state string is no HVAC mode. *)
Definition stored_unavailable : State :=
  mkState "unavailable" (Some (PyFloat 21%Q)) (Some PRESET_ECO).

(** A stored state in cooling mode with the eco preset on. *)
Definition stored_cool_eco : State :=
  mkState "cool" (Some (PyFloat 21%Q)) (Some PRESET_ECO).

(** A stored state whose temperature is an int too large for a float. *)
Definition stored_huge : State :=
  mkState "heat" (Some (PyInt (2 ^ 1024))) None.

(** The sample installation with neither a target temperature nor an
    initial mode configured, as constructed. *)
Definition demo_unconfigured : ACRemoteControl :=
  __init__ "AC Remote" None None None (Some true)
    (Some 10000000) (Some 60000000) None [(PRESET_ECO, 18%Q)]
    "http://ac.local/control" "user" "secret" 1000000.


(** A sample configuration: a target and two preset temperatures. *)
Definition demo_config : Config :=
  mkConfig "AC Remote"
    [("target_temp", 22%Q); ("eco_temp", 18%Q); ("away_temp", 16%Q)]
    (Some true) (Some 10000000) (Some 60000000) None
    "http://ac.local/control" "user" "secret".

(** ** Equations of the monad *)

Section MonadEquations.
Context {A B : Type}.
Variables (m : M A) (k : A -> M B) (s : ACRemoteControl).

Lemma outcome_bind :
  outcome (bind m k s) =
  match outcome (m s) with
  | Returned a => outcome (k a (final (m s)))
  | Raised e => Raised e
  end.
Proof.
  unfold bind. destruct (m s) as [[a|e] s1 tr1]; cbn; [|reflexivity].
  destruct (k a s1); reflexivity.
Qed.

Lemma final_bind :
  final (bind m k s) =
  match outcome (m s) with
  | Returned a => final (k a (final (m s)))
  | Raised _ => final (m s)
  end.
Proof.
  unfold bind. destruct (m s) as [[a|e] s1 tr1]; cbn; [|reflexivity].
  destruct (k a s1); reflexivity.
Qed.

Lemma effects_bind :
  effects (bind m k s) =
  match outcome (m s) with
  | Returned a => (effects (m s) ++ effects (k a (final (m s))))%list
  | Raised _ => effects (m s)
  end.
Proof.
  unfold bind. destruct (m s) as [[a|e] s1 tr1]; cbn; [|reflexivity].
  destruct (k a s1); reflexivity.
Qed.
End MonadEquations.



Lemma posts_app tr tr' : posts (tr ++ tr') = (posts tr ++ posts tr')%list.
Proof.
  induction tr as [|e tr IH]; cbn; [reflexivity|].
  destruct e; cbn; rewrite IH; reflexivity.
Qed.

(** ** Equations of the sender and of the re-evaluation *)

Lemma send_rest_command_eq ok p s :
  _send_rest_command ok p s =
  mkRun (Returned tt) (set_is_last_send_succeed ok s) (send_effects ok s p).
Proof. destruct ok; reflexivity. Qed.

Lemma command_sender_eq env s :
  _async_control_heating_command_sender env s =
  match _last_state s with
  | None => mkRun (Raised AttributeError) s [Log INFO "Something changed: %s"]
  | Some last =>
      if ACState_eqb last (cur_state s) then mkRun (Returned tt) s []
      else mkRun (Returned tt) (sent_state env s)
             (Log INFO "Something changed: %s"
                :: send_effects (post_ok env) s (command_payload last s))
  end.
Proof.
  unfold _async_control_heating_command_sender, cur_state.
  unfold bind at 1. cbn [get].
  destruct (_last_state s) as [last|] eqn:E; cbn [ACState_ne].
  - destruct (ACState_eqb last _); cbn [negb]; [reflexivity|].
    destruct (post_ok env) eqn:Eok; unfold sent_state; rewrite Eok; reflexivity.
  - reflexivity.
Qed.

Lemma control_heating_eq time force env s :
  _async_control_heating time force env s =
  if negb (_active (activated s)) then mkRun (Returned tt) s []
  else if gated time force env s
       then mkRun (Returned tt) (activated s) (activation_log s)
       else
         let r := _async_control_heating_command_sender env (activated s) in
         mkRun (outcome r) (final r) (activation_log s ++ effects r).
Proof.
  unfold _async_control_heating, gated, activated, activation_log, activates,
    elapsed, _is_device_active, timedelta_truthy.
  unfold bind at 1. cbn [get]. unfold bind at 1.
  destruct s as [n am mcd ka hm stt hms act mn mx pm tt' pms ps ok lt ls u us pw].
  cbn [_active _target_temp min_cycle_duration _last_control_action_time].
  destruct act, tt' as [t|]; cbn -[Z.sub Z.gtb Z.eqb _async_control_heating_command_sender];
    try reflexivity;
    (destruct force, time as [tm|], mcd as [d|];
     cbn -[Z.sub Z.gtb Z.eqb _async_control_heating_command_sender];
     try (destruct (_async_control_heating_command_sender env _) as [[[]|e] s' tr];
          reflexivity);
     destruct (d =? 0)%Z; cbn -[Z.sub Z.gtb _async_control_heating_command_sender];
     try destruct (_ >? d)%Z; cbn -[_async_control_heating_command_sender];
     try (destruct (_async_control_heating_command_sender env _) as [[[]|e] s' tr];
          reflexivity)).
all: reflexivity.
Qed.

(** ** Facts about the views *)

Lemma mode_is_spec x m : mode_is x m = true <-> x = Some m.
Proof.
  destruct x as [y|]; cbn; [|split; discriminate].
  destruct y, m; cbn; split; intros H; congruence.
Qed.


Lemma opt_temp_eqb_refl a : opt_temp_eqb a a = true.
Proof. destruct a as [t|]; cbn; [apply Qeq_bool_refl|reflexivity]. Qed.

Lemma opt_mode_eqb_refl a : opt_mode_eqb a a = true.
Proof. destruct a as [[]|]; reflexivity. Qed.

Lemma ACState_eqb_refl a : ACState_eqb a a = true.
Proof.
  unfold ACState_eqb. rewrite opt_temp_eqb_refl, opt_mode_eqb_refl. reflexivity.
Qed.

Lemma activated_active s :
  _active (activated s) = _active s || negb (is_None (_target_temp s)).
Proof.
  unfold activated, activates.
  destruct (_active s) eqn:Ha, (is_None (_target_temp s)); cbn; auto.
Qed.

Lemma activated_cur_state s : cur_state (activated s) = cur_state s.
Proof. unfold activated. destruct (activates s); reflexivity. Qed.

Lemma activated_last_state s : _last_state (activated s) = _last_state s.
Proof. unfold activated. destruct (activates s); reflexivity. Qed.

Lemma activated_last_time s :
  _last_control_action_time (activated s) = _last_control_action_time s.
Proof. unfold activated. destruct (activates s); reflexivity. Qed.

Lemma activated_payload last s :
  command_payload last (activated s) = command_payload last s.
Proof. unfold activated. destruct (activates s); reflexivity. Qed.

Lemma activated_send_effects ok s p :
  send_effects ok (activated s) p = send_effects ok s p.
Proof. unfold activated. destruct (activates s); reflexivity. Qed.

Lemma posts_activation_log s : posts (activation_log s) = [].
Proof. unfold activation_log. destruct (activates s); reflexivity. Qed.

Lemma posts_send_effects ok s p : posts (send_effects ok s p) = [p].
Proof. destruct ok; reflexivity. Qed.

(** The re-evaluation in one equation: not yet active, held back by the
    min-cycle check, nothing to compare with, nothing changed, or sent. *)
Lemma reeval_eq time force env s :
  _async_control_heating time force env s =
  if negb (_active s) && is_None (_target_temp s)
  then mkRun (Returned tt) s []
  else if gated time force env s
  then mkRun (Returned tt) (activated s) (activation_log s)
  else
    match _last_state s with
    | None =>
        mkRun (Raised AttributeError) (activated s)
          (activation_log s ++ [Log INFO "Something changed: %s"])
    | Some last =>
        if ACState_eqb last (cur_state s)
        then mkRun (Returned tt) (activated s) (activation_log s)
        else mkRun (Returned tt) (sent_state env (activated s))
               (activation_log s
                  ++ Log INFO "Something changed: %s"
                  :: send_effects (post_ok env) s (command_payload last s))
    end.
Proof.
  rewrite control_heating_eq, activated_active.
  destruct (_active s), (is_None (_target_temp s)); cbn [negb orb andb];
    try reflexivity;
    (destruct (gated time force env s); [reflexivity|];
     cbv zeta; rewrite command_sender_eq, activated_last_state,
       activated_cur_state;
     destruct (_last_state s) as [last|]; [|reflexivity];
     destruct (ACState_eqb last (cur_state s)); cbn [outcome final effects];
     rewrite ?app_nil_r, ?activated_payload, ?activated_send_effects;
     reflexivity).
Qed.

Lemma gated_early env s D :
  min_cycle_duration s = Some D -> D <> 0 -> elapsed env s <= D ->
  gated None true env s = true.
Proof.
  intros Hd Hnz He. unfold gated. rewrite Hd. cbn.
  destruct (Z.eqb_spec D 0); [contradiction|].
  destruct (Z.gtb_spec (elapsed env s) D); [lia|reflexivity].
Qed.

Lemma gated_late time force env s D :
  min_cycle_duration s = Some D -> D < elapsed env s ->
  gated time force env s = false.
Proof.
  intros Hd He. unfold gated. rewrite Hd.
  destruct (Z.gtb_spec (elapsed env s) D); [|lia].
  cbn. rewrite andb_false_r, andb_false_r. reflexivity.
Qed.



Lemma gated_unforced time env s : gated time false env s = false.
Proof. reflexivity. Qed.

Lemma not_inactive s :
  _active s = true \/ _target_temp s <> None ->
  negb (_active s) && is_None (_target_temp s) = false.
Proof.
  intros [H|H]; [rewrite H; reflexivity|].
  destruct (_target_temp s); [|congruence]. apply andb_false_r.
Qed.

(** A re-evaluation that finds the last-sent state equal to the current
    one: no POST, no exception, nothing but [_active] touched. *)
Lemma reeval_unchanged time force env s last :
  _last_state s = Some last -> ACState_eqb last (cur_state s) = true ->
  let r := _async_control_heating time force env s in
  outcome r = Returned tt /\ posts (effects r) = [] /\
  (final r = s \/ final r = activated s).
Proof.
  intros Hl He. cbv zeta. rewrite reeval_eq, Hl, He.
  destruct (negb (_active s) && is_None (_target_temp s));
    [cbn; auto|].
  destruct (gated time force env s); cbn [outcome final effects];
    rewrite posts_activation_log; auto.
Qed.

(** One re-evaluation performs at most one POST. *)
Lemma reeval_at_most_one_post time force env s :
  (List.length (posts (effects (_async_control_heating time force env s))) <= 1)%nat.
Proof.
  rewrite reeval_eq.
  destruct (negb (_active s) && is_None (_target_temp s)); [cbn; lia|].
  destruct (gated time force env s);
    [cbn [effects]; rewrite posts_activation_log; cbn; lia|].
  destruct (_last_state s) as [last|].
  - destruct (ACState_eqb last (cur_state s)); cbn [effects];
      rewrite ?posts_app, ?posts_activation_log; cbn [posts app];
      rewrite ?posts_send_effects; cbn; lia.
  - cbn [effects]. rewrite posts_app, posts_activation_log. cbn; lia.
Qed.

(** What a re-evaluation leaves behind when it does POST. *)
Lemma reeval_posted time force env s :
  let r := _async_control_heating time force env s in
  posts (effects r) <> [] ->
  final r = sent_state env (activated s).
Proof.
  cbv zeta. rewrite reeval_eq.
  destruct (negb (_active s) && is_None (_target_temp s)); [cbn; congruence|].
  destruct (gated time force env s);
    [cbn [effects]; rewrite posts_activation_log; congruence|].
  destruct (_last_state s) as [last|].
  - destruct (ACState_eqb last (cur_state s)); cbn [effects final];
      rewrite ?posts_app, ?posts_activation_log; cbn; congruence.
  - cbn [effects]. rewrite posts_app, posts_activation_log. cbn; congruence.
Qed.

Lemma sent_state_last_state env s :
  _last_state (sent_state env s) = Some (cur_state s).
Proof. reflexivity. Qed.


Lemma reeval_gated env s D :
  min_cycle_duration s = Some D -> D <> 0 -> elapsed env s <= D ->
  let r := _async_control_heating None true env s in
  outcome r = Returned tt /\ posts (effects r) = [] /\
  (final r = s \/ final r = activated s).
Proof.
  intros Hd Hnz He. cbv zeta. rewrite reeval_eq.
  destruct (negb (_active s) && is_None (_target_temp s)); [cbn; auto|].
  rewrite (gated_early env s D Hd Hnz He). cbn [outcome final effects].
  rewrite posts_activation_log. auto.
Qed.

Lemma reeval_sends time force env s last :
  gated time force env s = false ->
  _active s = true \/ _target_temp s <> None ->
  _last_state s = Some last -> ACState_eqb last (cur_state s) = false ->
  let r := _async_control_heating time force env s in
  outcome r = Returned tt /\ posts (effects r) = [command_payload last s] /\
  final r = sent_state env (activated s).
Proof.
  intros Hg Ha Hl Hne. cbv zeta.
  rewrite reeval_eq, (not_inactive s Ha), Hg, Hl, Hne.
  cbn [outcome final effects].
  rewrite posts_app, posts_activation_log. cbn [posts app].
  rewrite posts_send_effects. auto.
Qed.

(** ** C1: min-cycle gating *)

(** Claim C1.  With [min_cycle_duration] configured as a (non-zero)
    duration [D], a forced re-evaluation without time marker made when
    less than [D] has elapsed since the last action time sends no command
    and leaves the last-sent state and the action time as they were; made
    when more than [D] has elapsed, with the machine active (or its target
    temperature defined) and the current logical state different from the
    last-sent one, it sends exactly one command, records the current
    state as sent and restarts the clock.  The late re-evaluation sends
    also when an early, suppressed one came before it. *)
Theorem min_cycle_gating (s : ACRemoteControl) (D : timedelta) :
  min_cycle_duration s = Some D -> D <> 0 ->
  (forall early : Env,
      elapsed early s < D ->
      let r := _async_control_heating None true early s in
      outcome r = Returned tt /\ posts (effects r) = [] /\
      _last_state (final r) = _last_state s /\
      _last_control_action_time (final r) = _last_control_action_time s)
  /\
  (forall (late : Env) (last : ACState),
      D < elapsed late s ->
      _active s = true \/ _target_temp s <> None ->
      _last_state s = Some last -> ACState_eqb last (cur_state s) = false ->
      let r := _async_control_heating None true late s in
      outcome r = Returned tt /\
      posts (effects r) = [command_payload last s] /\
      _last_state (final r) = Some (cur_state s) /\
      _last_control_action_time (final r) = now_sent late)
  /\
  (forall (early late : Env) (last : ACState),
      elapsed early s < D -> D < elapsed late s ->
      _active s = true \/ _target_temp s <> None ->
      _last_state s = Some last -> ACState_eqb last (cur_state s) = false ->
      let r1 := _async_control_heating None true early s in
      let r2 := _async_control_heating None true late (final r1) in
      posts (effects r1) = [] /\
      posts (effects r2) = [command_payload last s] /\
      _last_state (final r2) = Some (cur_state s) /\
      _last_control_action_time (final r2) = now_sent late).
Proof.
  intros Hd Hnz.
  assert (Hlate : forall late last,
             D < elapsed late s ->
             _active s = true \/ _target_temp s <> None ->
             _last_state s = Some last ->
             ACState_eqb last (cur_state s) = false ->
             let r := _async_control_heating None true late s in
             outcome r = Returned tt /\
             posts (effects r) = [command_payload last s] /\
             _last_state (final r) = Some (cur_state s) /\
             _last_control_action_time (final r) = now_sent late).
  { intros late last He Ha Hl Hne.
    destruct (reeval_sends None true late s last
                (gated_late None true late s D Hd He) Ha Hl Hne)
      as (Ho & Hp & Hf).
    cbv zeta. rewrite Ho, Hp, Hf. repeat split.
    rewrite sent_state_last_state, activated_cur_state. reflexivity. }
  split; [|split].
  - intros early He.
    destruct (reeval_gated early s D Hd Hnz (Z.lt_le_incl _ _ He))
      as (Ho & Hp & Hf).
    cbv zeta. rewrite Ho, Hp.
    destruct Hf as [-> | ->];
      rewrite ?activated_last_state, ?activated_last_time; auto.
  - exact Hlate.
  - intros early late last He Hl Ha Hls Hne.
    destruct (reeval_gated early s D Hd Hnz (Z.lt_le_incl _ _ He))
      as (_ & Hp & Hf).
    cbv zeta. split; [exact Hp|].
    destruct Hf as [-> | ->]; [apply (Hlate late last); assumption|].
    assert (Hg : gated None true late (activated s) = false).
    { apply (gated_late _ _ _ _ D).
      - unfold activated. destruct (activates s); exact Hd.
      - unfold elapsed. rewrite activated_last_time. exact Hl. }
    assert (Ha' : _active (activated s) = true
                  \/ _target_temp (activated s) <> None).
    { left. rewrite activated_active.
      destruct Ha as [-> | Ht]; [reflexivity|].
      destruct (_target_temp s); [apply orb_true_r|congruence]. }
    destruct (reeval_sends None true late (activated s) last Hg Ha')
      as (_ & Hp2 & Hf2).
    + rewrite activated_last_state. exact Hls.
    + rewrite activated_cur_state. exact Hne.
    + rewrite Hp2, Hf2, activated_payload. repeat split.
      rewrite sent_state_last_state, !activated_cur_state. reflexivity.
Qed.

Lemma min_cycle_gating_witness :
  posts (effects (_async_control_heating None true
                    at_5s demo_pending)) = []
  /\ posts (effects (_async_control_heating None true
                       at_12s demo_pending))
     = [mkPayload false false "HEAT_MODE" "FAN_AUTO" (Some 23%Q)].
Proof.
  destruct (min_cycle_gating demo_pending 10000000 eq_refl ltac:(discriminate))
    as (Hearly & Hlate & _).
  split.
  - apply (Hearly at_5s). reflexivity.
  - apply (Hlate at_12s
             (mkACState (Some 22%Q) (Some HVACMode_OFF))).
    + reflexivity.
    + right. discriminate.
    + reflexivity.
    + reflexivity.
Defined.

(** ** C2: idempotence of the re-evaluation *)

(** Claim C2.  In every state whose current logical state (target
    temperature, hvac mode) equals the last-sent state, a re-evaluation,
    however triggered, performs no network call and leaves the last-sent
    state and the last action time unchanged; and from any state, two
    consecutive re-evaluations with nothing in between perform at most one
    network call. *)
Theorem reevaluation_idempotent (s : ACRemoteControl) :
  (forall last : ACState,
      _last_state s = Some last -> ACState_eqb last (cur_state s) = true ->
      forall (time : option datetime) (force : bool) (env : Env),
        let r := _async_control_heating time force env s in
        posts (effects r) = [] /\
        _last_state (final r) = _last_state s /\
        _last_control_action_time (final r) = _last_control_action_time s)
  /\
  (forall (t1 t2 : option datetime) (f1 f2 : bool) (e1 e2 : Env),
      let r1 := _async_control_heating t1 f1 e1 s in
      let r2 := _async_control_heating t2 f2 e2 (final r1) in
      (List.length (posts (effects r1) ++ posts (effects r2)) <= 1)%nat).
Proof.
  split.
  - intros last Hl He time force env.
    destruct (reeval_unchanged time force env s last Hl He) as (_ & Hp & Hf).
    cbv zeta. split; [exact Hp|].
    destruct Hf as [-> | ->];
      rewrite ?activated_last_state, ?activated_last_time; auto.
  - intros t1 t2 f1 f2 e1 e2. cbv zeta.
    destruct (posts (effects (_async_control_heating t1 f1 e1 s))) as [|p ps]
      eqn:Hp1.
    + cbn [app]. apply reeval_at_most_one_post.
    + assert (Hf : final (_async_control_heating t1 f1 e1 s)
                   = sent_state e1 (activated s))
        by (apply reeval_posted; rewrite Hp1; discriminate).
      rewrite Hf.
      destruct (reeval_unchanged t2 f2 e2 (sent_state e1 (activated s))
                  (cur_state (activated s)))
        as (_ & Hp2 & _);
        [reflexivity | apply ACState_eqb_refl |].
      rewrite Hp2, app_nil_r, <- Hp1. apply reeval_at_most_one_post.
Qed.

Lemma reevaluation_idempotent_witness :
  posts (effects (_async_control_heating None true at_61s demo)) = []
  /\ (List.length
        (posts (effects (_async_control_heating None false
                           at_12s_failing demo_pending))
         ++ posts (effects (_async_control_heating None true at_61s
                              (final (_async_control_heating None false
                                        at_12s_failing demo_pending)))))
      <= 1)%nat.
Proof.
  destruct (reevaluation_idempotent demo) as (Hsame & _).
  destruct (reevaluation_idempotent demo_pending) as (_ & Htwice).
  split.
  - apply (Hsame (mkACState (Some 22%Q) (Some HVACMode_OFF)));
      reflexivity.
  - apply Htwice.
Defined.

(** ** C3: the keep-alive timer *)

(** Claim C3, refuted as stated: on the sample entity a forced
    re-evaluation sends the pending target of 23 degrees, the POST fails,
    and the keep-alive tick a minute later sends nothing. *)
Lemma keep_alive_retries_refuted :
  ~ keep_alive_retries demo_pending at_12s_failing
      61000000 at_61s.
Proof.
  unfold keep_alive_retries. intros H.
  apply H; [discriminate | reflexivity | reflexivity].
Qed.

(** Claim C3, amended.  A keep-alive tick sends the current desired
    state, without any user action, exactly when that state differs from
    the last-sent state (for instance a change held back by the min-cycle
    check); and after a re-evaluation that sent a command, whatever the
    network outcome, the next keep-alive tick sends nothing as long as
    the desired state is unchanged: a failed send is not sent again. *)
Theorem keep_alive_sends_unsent_state_only
    (s : ACRemoteControl) (now : datetime) (env : Env) :
  (forall last : ACState,
      _last_state s = Some last ->
      _active s = true \/ _target_temp s <> None ->
      posts (effects (keep_alive_tick now env s))
      = if ACState_eqb last (cur_state s) then []
        else [command_payload last s])
  /\
  (forall (time : option datetime) (force : bool) (env0 : Env),
      let r := _async_control_heating time force env0 s in
      posts (effects r) <> [] ->
      posts (effects (keep_alive_tick now env (final r))) = []).
Proof.
  split.
  - intros last Hl Ha. unfold keep_alive_tick.
    destruct (ACState_eqb last (cur_state s)) eqn:He.
    + apply (reeval_unchanged (Some now) false env s last Hl He).
    + apply (reeval_sends (Some now) false env s last
               (gated_unforced _ _ _) Ha Hl He).
  - intros time force env0. cbv zeta. intros Hp.
    rewrite (reeval_posted time force env0 s Hp). unfold keep_alive_tick.
    apply (reeval_unchanged (Some now) false env
             (sent_state env0 (activated s)) (cur_state (activated s)));
      [reflexivity | apply ACState_eqb_refl].
Qed.

Lemma keep_alive_sends_unsent_state_only_witness :
  posts (effects (keep_alive_tick 61000000 at_61s
                    demo_pending))
  = [mkPayload false false "HEAT_MODE" "FAN_AUTO" (Some 23%Q)]
  /\ posts (effects (keep_alive_tick 61000000 at_61s
                       (final (_async_control_heating None true
                                 at_12s_failing
                                 demo_pending)))) = [].
Proof.
  destruct (keep_alive_sends_unsent_state_only demo_pending 61000000
              at_61s) as (Htick & Hafter).
  split.
  - apply (Htick (mkACState (Some 22%Q) (Some HVACMode_OFF)));
      [reflexivity | right; discriminate].
  - apply (Hafter None true at_12s_failing). discriminate.
Defined.

(** ** C4: payload construction *)

(** Claim C4.  Whenever the sender sends (a last-sent state exists and
    differs from the current one), the one payload it posts has
    [power_toggle] true iff exactly one of previous mode = OFF and
    current mode = OFF holds, [power] true iff the current mode is not
    OFF, [mode] "COOL_MODE" when the current mode is COOL and "HEAT_MODE"
    otherwise (OFF included), [fan] "FAN_AUTO", and [temperature] the
    current target temperature. *)
Theorem payload_construction
    (s : ACRemoteControl) (env : Env) (last : ACState) :
  _last_state s = Some last -> ACState_eqb last (cur_state s) = false ->
  exists p : Payload,
    posts (effects (_async_control_heating_command_sender env s)) = [p] /\
    (pl_power_toggle p = true <->
     exactly_one (mode last = Some HVACMode_OFF)
                 (hvac_mode s = Some HVACMode_OFF)) /\
    (pl_power p = true <-> hvac_mode s <> Some HVACMode_OFF) /\
    (hvac_mode s = Some HVACMode_COOL -> pl_mode p = "COOL_MODE") /\
    (hvac_mode s <> Some HVACMode_COOL -> pl_mode p = "HEAT_MODE") /\
    pl_fan p = "FAN_AUTO" /\
    pl_temperature p = target_temperature s.
Proof.
  intros Hl Hne. exists (command_payload last s).
  rewrite command_sender_eq, Hl, Hne. cbn [effects posts].
  rewrite posts_send_effects.
  unfold command_payload, exactly_one, hvac_mode, target_temperature.
  cbn [pl_power_toggle pl_power pl_mode pl_fan pl_temperature].
  pose proof (mode_is_spec (mode last) HVACMode_OFF) as Hlast.
  pose proof (mode_is_spec (_hvac_mode s) HVACMode_OFF) as Hoff.
  pose proof (mode_is_spec (_hvac_mode s) HVACMode_COOL) as Hcool.
  destruct (mode_is (mode last) HVACMode_OFF),
    (mode_is (_hvac_mode s) HVACMode_OFF),
    (mode_is (_hvac_mode s) HVACMode_COOL);
    cbn [andb orb negb]; repeat split; intros; try reflexivity;
    try tauto; try intuition congruence.
Qed.

Lemma payload_construction_witness :
  exists p : Payload,
    posts (effects (_async_control_heating_command_sender
                      at_12s
                      (set_hvac_mode (Some HVACMode_HEAT) demo))) = [p] /\
    (pl_power_toggle p = true <->
     exactly_one (Some HVACMode_OFF = Some HVACMode_OFF)
                 (Some HVACMode_HEAT = Some HVACMode_OFF)) /\
    (pl_power p = true <-> Some HVACMode_HEAT <> Some HVACMode_OFF) /\
    (Some HVACMode_HEAT = Some HVACMode_COOL -> pl_mode p = "COOL_MODE") /\
    (Some HVACMode_HEAT <> Some HVACMode_COOL -> pl_mode p = "HEAT_MODE") /\
    pl_fan p = "FAN_AUTO" /\
    pl_temperature p = Some 22%Q.
Proof.
  apply (payload_construction (set_hvac_mode (Some HVACMode_HEAT) demo)
           at_12s
           (mkACState (Some 22%Q) (Some HVACMode_OFF)));
    reflexivity.
Defined.

(** ** C5: the reported action *)

(** Claim C5.  In every state [hvac_action] is IDLE when the last send
    attempt did not succeed, whatever the mode; when it succeeded it is
    HEATING for mode HEAT, COOLING for mode COOL and OFF otherwise.  The
    flag read is the outcome of the last POST: a re-evaluation that sends
    records whether its POST succeeded and leaves the mode alone. *)
Theorem reported_action (s : ACRemoteControl) :
  (_is_last_send_succeed s = false -> hvac_action s = HVACAction_IDLE) /\
  (_is_last_send_succeed s = true ->
   (hvac_mode s = Some HVACMode_HEAT -> hvac_action s = HVACAction_HEATING) /\
   (hvac_mode s = Some HVACMode_COOL -> hvac_action s = HVACAction_COOLING) /\
   (hvac_mode s <> Some HVACMode_HEAT -> hvac_mode s <> Some HVACMode_COOL ->
    hvac_action s = HVACAction_OFF)) /\
  (forall (time : option datetime) (force : bool) (env : Env),
      let r := _async_control_heating time force env s in
      posts (effects r) <> [] ->
      _is_last_send_succeed (final r) = post_ok env /\
      hvac_mode (final r) = hvac_mode s).
Proof.
  unfold hvac_action, hvac_mode. split; [|split].
  - intros ->. reflexivity.
  - intros ->. cbn [negb].
    pose proof (mode_is_spec (_hvac_mode s) HVACMode_HEAT) as Hheat.
    pose proof (mode_is_spec (_hvac_mode s) HVACMode_COOL) as Hcool.
    destruct (mode_is (_hvac_mode s) HVACMode_HEAT),
      (mode_is (_hvac_mode s) HVACMode_COOL);
      repeat split; intros; try reflexivity; intuition congruence.
  - intros time force env. cbv zeta. intros Hp.
    rewrite (reeval_posted time force env s Hp).
    unfold activated. destruct (activates s); split; reflexivity.
Qed.

Lemma reported_action_witness :
  hvac_action (set_hvac_mode (Some HVACMode_COOL) demo) = HVACAction_IDLE
  /\ hvac_action
       (final (_async_control_heating None true at_12s
                 (set_hvac_mode (Some HVACMode_COOL) demo)))
     = HVACAction_COOLING
  /\ _is_last_send_succeed
       (final (_async_control_heating None true at_12s_failing
                 (set_hvac_mode (Some HVACMode_COOL) demo)))
     = false.
Proof.
  split; [|split].
  - apply (reported_action (set_hvac_mode (Some HVACMode_COOL) demo)).
    reflexivity.
  - apply (reported_action
             (final (_async_control_heating None true at_12s
                       (set_hvac_mode (Some HVACMode_COOL) demo))));
      reflexivity.
  - apply (reported_action (set_hvac_mode (Some HVACMode_COOL) demo)).
    discriminate.
Defined.

(** ** Membership and dict lookups *)

Lemma str_in_spec x l : str_in x l = true <-> In x l.
Proof.
  unfold str_in. rewrite existsb_exists. split.
  - intros (y & Hy & He). apply String.eqb_eq in He. subst. exact Hy.
  - intros H. exists x. split; [exact H | apply String.eqb_refl].
Qed.

Lemma dict_get_in_keys {V : Type} k (d : list (string * V)) v :
  dict_get k d = Some v -> In k (dict_keys d).
Proof.
  induction d as [|[k' v'] d IH]; cbn; [discriminate|].
  destruct (String.eqb_spec k k'); [auto|]. intros H. right. auto.
Qed.

(** ** Invariants kept by the calls *)

Section Keeps.
Variable I : ACRemoteControl -> Prop.

Lemma keeps_ret {A} (a : A) : keeps I (ret a).
Proof. intros s Hs. exact Hs. Qed.

Lemma keeps_get : keeps I get.
Proof. intros s Hs. exact Hs. Qed.

Lemma keeps_emit e : keeps I (emit e).
Proof. intros s Hs. exact Hs. Qed.

Lemma keeps_raise {A} e : keeps I (@raise A e).
Proof. intros s Hs. exact Hs. Qed.

Lemma keeps_modify f : (forall s, I s -> I (f s)) -> keeps I (modify f).
Proof. intros Hf s Hs. apply Hf, Hs. Qed.

Lemma keeps_bind {A B} (m : M A) (k : A -> M B) :
  keeps I m -> (forall a, keeps I (k a)) -> keeps I (bind m k).
Proof.
  intros Hm Hk s Hs. rewrite final_bind.
  destruct (outcome (m s)); [apply Hk|]; apply Hm, Hs.
Qed.

(** The attributes a re-evaluation writes. *)
Variable env : Env.
Hypothesis I_active : forall s, I s -> I (set_active true s).
Hypothesis I_succeed :
  forall s, I s -> I (set_is_last_send_succeed (post_ok env) s).
Hypothesis I_last_state : forall v s, I s -> I (set_last_state v s).
Hypothesis I_time :
  forall s, I s -> I (set_last_control_action_time (now_sent env) s).

Lemma keeps_control_heating time force :
  keeps I (_async_control_heating time force env).
Proof.
  intros s Hs. rewrite reeval_eq.
  assert (Ha : I (activated s))
    by (unfold activated; destruct (activates s); auto).
  destruct (negb (_active s) && is_None (_target_temp s)); [exact Hs|].
  destruct (gated time force env s); [exact Ha|].
  destruct (_last_state s) as [last|]; [|exact Ha].
  destruct (ACState_eqb last (cur_state s)); [exact Ha|].
  cbn [final]. unfold sent_state. auto.
Qed.

(** The attributes the setters and the start-up write. *)
Hypothesis I_hvac_mode : forall v s, I s -> I (set_hvac_mode v s).
Hypothesis I_target_temp : forall v s, I s -> I (set_target_temp v s).
Hypothesis I_saved : forall v s, I s -> I (set_saved_target_temp v s).
Hypothesis I_preset_mode : forall v s, I s -> I (set_attr_preset_mode v s).

Ltac keeps_step :=
  lazymatch goal with
  | |- keeps _ (bind _ _) => apply keeps_bind; [|intros ?]
  | |- keeps _ (ret _) => apply keeps_ret
  | |- keeps _ get => apply keeps_get
  | |- keeps _ (emit _) => apply keeps_emit
  | |- keeps _ (raise _) => apply keeps_raise
  | |- keeps _ (modify _) => apply keeps_modify; intros ? ?; auto
  | |- keeps _ (_async_control_heating _ _ _) => apply keeps_control_heating
  | |- keeps _ (if ?b then _ else _) => destruct b
  | |- keeps _ (match ?x with _ => _ end) => destruct x
  end.

Lemma keeps_call c : keeps I (call c env).
Proof.
  destruct c as [old|m|t|p|now]; cbn [call];
    unfold async_added_to_hass, async_set_hvac_mode, async_set_temperature,
      async_set_preset_mode, keep_alive_tick;
    repeat keeps_step.
Qed.
End Keeps.

Lemma run_calls_keeps (I : ACRemoteControl -> Prop) cs :
  Forall (fun ce => keeps I (call (fst ce) (snd ce))) cs ->
  forall s, I s -> I (fst (run_calls cs s)).
Proof.
  induction 1 as [|[c env] cs Hc Hcs IH]; intros s Hs; cbn [run_calls];
    [exact Hs|].
  specialize (IH (final (call c env s)) (Hc s Hs)).
  destruct (run_calls cs (final (call c env s))) as [s' tr]. exact IH.
Qed.

(** The preset table and the list of preset modes are never written. *)
Lemma call_keeps_presets c env (ps : list (string * Temperature))
    (pms : list string) :
  keeps (fun s => _presets s = ps /\ preset_modes s = pms) (call c env).
Proof. apply keeps_call; intros; assumption. Qed.

Lemma init_preset_modes_consistent
    name min_temp max_temp target_temp ac_mode min_cycle_duration keep_alive
    initial_hvac_mode presets rest_url username password now :
  preset_modes_consistent
    (__init__ name min_temp max_temp target_temp ac_mode min_cycle_duration
       keep_alive initial_hvac_mode presets rest_url username password now).
Proof.
  unfold preset_modes_consistent, preset_modes, __init__.
  cbn [_attr_preset_modes _presets].
  destruct presets; reflexivity.
Qed.

Lemma call_keeps_preset_modes_consistent c env :
  keeps preset_modes_consistent (call c env).
Proof.
  intros s Hs.
  destruct (call_keeps_presets c env (_presets s) (preset_modes s) s
              (conj eq_refl eq_refl)) as [Hp Hm].
  unfold preset_modes_consistent in *. rewrite Hp, Hm. exact Hs.
Qed.

(** Every state an entity goes through has its list of preset modes made
    of the sentinel and the names of its preset table. *)
Lemma reachable_preset_modes_consistent
    name min_temp max_temp target_temp ac_mode min_cycle_duration keep_alive
    initial_hvac_mode presets rest_url username password now cs :
  preset_modes_consistent
    (fst (run_calls cs
            (__init__ name min_temp max_temp target_temp ac_mode
               min_cycle_duration keep_alive initial_hvac_mode presets
               rest_url username password now))).
Proof.
  apply run_calls_keeps; [|apply init_preset_modes_consistent].
  apply Forall_forall. intros [c env] _.
  apply call_keeps_preset_modes_consistent.
Qed.

(** ** C6: an invalid preset is rejected and nothing changes *)

(** Claim C6.  For every preset name that is neither a configured preset
    name nor the sentinel "none", [async_set_preset_mode] raises
    [ValueError] and leaves the whole controller state as it was; its only
    effect is the log line written on entry, so there is no re-evaluation,
    no network call and no notification. *)
Theorem invalid_preset_rejected
    (s : ACRemoteControl) (p : string) (env : Env) :
  preset_modes_consistent s ->
  p <> PRESET_NONE -> ~ In p (dict_keys (_presets s)) ->
  let r := async_set_preset_mode p env s in
  outcome r = Raised ValueError /\ final r = s /\
  effects r = [Log INFO "Setting new preset mode: %s"] /\
  posts (effects r) = [].
Proof.
  intros Hc Hn Hk.
  assert (Hin : str_in p (preset_modes s) = false).
  { destruct (str_in p (preset_modes s)) eqn:E; [|reflexivity].
    apply str_in_spec in E. rewrite Hc in E.
    destruct E as [E|E]; [congruence|contradiction]. }
  cbv zeta. unfold async_set_preset_mode, bind, emit, get.
  rewrite Hin. cbn. auto.
Qed.

Lemma invalid_preset_rejected_witness :
  outcome (async_set_preset_mode "bogus" at_5s demo) = Raised ValueError
  /\ final (async_set_preset_mode "bogus" at_5s demo) = demo
  /\ effects (async_set_preset_mode "bogus" at_5s demo)
     = [Log INFO "Setting new preset mode: %s"]
  /\ posts (effects (async_set_preset_mode "bogus" at_5s demo)) = [].
Proof.
  apply (invalid_preset_rejected demo "bogus" at_5s).
  - reflexivity.
  - discriminate.
  - cbn. intros [H|[]]. discriminate.
Defined.

(** ** C7: preset round trip *)

(** The two effective branches of [async_set_preset_mode], by the state
    they hand to the re-evaluation. *)
Lemma set_preset_mode_named_final p v env s :
  str_in p (preset_modes s) = true ->
  String.eqb p (_attr_preset_mode s) = false ->
  String.eqb p PRESET_NONE = false ->
  dict_get p (_presets s) = Some v ->
  final (async_set_preset_mode p env s) =
  final (_async_control_heating None false env
           (set_target_temp (Some v)
              (set_attr_preset_mode p
                 (if String.eqb (_attr_preset_mode s) PRESET_NONE
                  then set_saved_target_temp (_target_temp s) s else s)))).
Proof.
  intros Hin Hsame Hnone Hget.
  unfold async_set_preset_mode.
  rewrite final_bind. cbn [emit outcome final].
  rewrite final_bind. cbn [get outcome final].
  rewrite Hin, Hsame, Hnone. cbn [negb].
  rewrite Hget.
  destruct (String.eqb (_attr_preset_mode s) PRESET_NONE);
    repeat (rewrite ?final_bind, ?outcome_bind;
            cbn [modify ret outcome final]);
    match goal with
    | |- context [outcome (_async_control_heating ?t ?f ?e ?x)] =>
        destruct (outcome (_async_control_heating t f e x))
    end; reflexivity.
Qed.

Lemma set_preset_mode_none_final env s :
  str_in PRESET_NONE (preset_modes s) = true ->
  String.eqb PRESET_NONE (_attr_preset_mode s) = false ->
  final (async_set_preset_mode PRESET_NONE env s) =
  final (_async_control_heating None false env
           (set_target_temp (_saved_target_temp s)
              (set_attr_preset_mode PRESET_NONE s))).
Proof.
  intros Hin Hsame.
  unfold async_set_preset_mode.
  rewrite final_bind. cbn [emit outcome final].
  rewrite final_bind. cbn [get outcome final].
  rewrite Hin, Hsame, String.eqb_refl. cbn [negb].
  repeat (rewrite ?final_bind, ?outcome_bind; cbn [modify ret outcome final]).
  match goal with
  | |- context [outcome (_async_control_heating ?t ?f ?e ?x)] =>
      destruct (outcome (_async_control_heating t f e x))
  end; reflexivity.
Qed.

(** A re-evaluation writes none of the preset attributes. *)
Lemma control_heating_keeps_preset_attrs time force env
    (target saved : option Temperature) (pm : string)
    (ps : list (string * Temperature)) (pms : list string) :
  keeps (fun s => _target_temp s = target /\ _saved_target_temp s = saved /\
                  _attr_preset_mode s = pm /\ _presets s = ps /\
                  preset_modes s = pms)
    (_async_control_heating time force env).
Proof. apply keeps_control_heating; intros; assumption. Qed.

(** Claim C7.  Starting with preset "none" and any target temperature
    [T], setting a configured named preset [p] saves [T] and sets the
    target temperature to the table value of [p]; setting preset "none"
    afterwards restores the target temperature to [T]. *)
Theorem preset_round_trip
    (s : ACRemoteControl) (p : string) (v : Temperature)
    (T : option Temperature) (env1 env2 : Env) :
  preset_modes_consistent s ->
  _attr_preset_mode s = PRESET_NONE -> _target_temp s = T ->
  p <> PRESET_NONE -> dict_get p (_presets s) = Some v ->
  let s1 := final (async_set_preset_mode p env1 s) in
  let s2 := final (async_set_preset_mode PRESET_NONE env2 s1) in
  (_saved_target_temp s1 = T /\ _target_temp s1 = Some v /\
   _attr_preset_mode s1 = p) /\
  (_target_temp s2 = T /\ _attr_preset_mode s2 = PRESET_NONE).
Proof.
  intros Hc Hpm HT Hp Hget. cbv zeta.
  assert (Hpnone : String.eqb p PRESET_NONE = false)
    by (apply String.eqb_neq; exact Hp).
  assert (Hin : str_in p (preset_modes s) = true).
  { apply str_in_spec. rewrite Hc. right.
    apply (dict_get_in_keys _ _ _ Hget). }
  rewrite (set_preset_mode_named_final p v env1 s Hin) by
    (rewrite ?Hpm; assumption).
  rewrite Hpm, String.eqb_refl.
  match goal with
  | |- context [final (_async_control_heating None false env1 ?x)] =>
      destruct (control_heating_keeps_preset_attrs None false env1
                  (Some v) T p (_presets s) (preset_modes s) x)
        as (Ht1 & Hs1 & Hp1 & Hps1 & Hpms1);
      [repeat split; try reflexivity; exact HT|];
      set (s1 := final (_async_control_heating None false env1 x)) in *
  end.
  split; [auto|].
  assert (Hin1 : str_in PRESET_NONE (preset_modes s1) = true).
  { apply str_in_spec. rewrite Hpms1, Hc. left. reflexivity. }
  assert (Hne1 : String.eqb PRESET_NONE (_attr_preset_mode s1) = false).
  { rewrite Hp1. apply String.eqb_neq. congruence. }
  rewrite (set_preset_mode_none_final env2 s1 Hin1 Hne1).
  match goal with
  | |- context [final (_async_control_heating None false env2 ?x)] =>
      destruct (control_heating_keeps_preset_attrs None false env2
                  T T PRESET_NONE (_presets s1) (preset_modes s1) x)
        as (Ht2 & _ & Hp2 & _);
      [repeat split; try reflexivity; exact Hs1|]
  end.
  auto.
Qed.

Lemma preset_round_trip_witness :
  (_saved_target_temp (final (async_set_preset_mode PRESET_ECO at_12s demo))
   = Some 22%Q
   /\ _target_temp (final (async_set_preset_mode PRESET_ECO at_12s demo))
      = Some 18%Q
   /\ _attr_preset_mode (final (async_set_preset_mode PRESET_ECO at_12s demo))
      = PRESET_ECO)
  /\ (_target_temp
        (final (async_set_preset_mode PRESET_NONE at_61s
                  (final (async_set_preset_mode PRESET_ECO at_12s demo))))
      = Some 22%Q
      /\ _attr_preset_mode
           (final (async_set_preset_mode PRESET_NONE at_61s
                     (final (async_set_preset_mode PRESET_ECO at_12s demo))))
         = PRESET_NONE).
Proof.
  apply (preset_round_trip demo PRESET_ECO 18%Q (Some 22%Q) at_12s at_61s).
  - reflexivity.
  - reflexivity.
  - reflexivity.
  - discriminate.
  - reflexivity.
Defined.

(** ** C8: an unsupported HVAC mode *)

(** Claim C8, refuted as stated: setting mode AUTO on the sample entity
    does not fail with an error, the call returns normally. *)
Lemma unsupported_hvac_mode_does_not_raise :
  ~ raises (async_set_hvac_mode HVACMode_AUTO at_5s demo).
Proof. intros [e He]. discriminate He. Qed.

(** Claim C8, amended.  For every mode outside HEAT, COOL and OFF,
    [async_set_hvac_mode] logs an error and returns normally, without
    raising; the controller state (hvac mode, last-sent state, action
    time and all the rest) is unchanged and the error log line is the only
    effect: no re-evaluation, no network call, no notification. *)
Theorem unsupported_hvac_mode_logged_and_ignored
    (m : HVACMode) (env : Env) (s : ACRemoteControl) :
  m <> HVACMode_HEAT -> m <> HVACMode_COOL -> m <> HVACMode_OFF ->
  let r := async_set_hvac_mode m env s in
  outcome r = Returned tt /\ final r = s /\
  effects r = [Log ERROR "Unrecognized hvac mode: %s"] /\
  posts (effects r) = [].
Proof.
  intros Hh Hc Ho. cbv zeta.
  destruct m; try contradiction; cbn; auto.
Qed.

Lemma unsupported_hvac_mode_logged_and_ignored_witness :
  outcome (async_set_hvac_mode HVACMode_AUTO at_5s demo) = Returned tt
  /\ final (async_set_hvac_mode HVACMode_AUTO at_5s demo) = demo
  /\ effects (async_set_hvac_mode HVACMode_AUTO at_5s demo)
     = [Log ERROR "Unrecognized hvac mode: %s"]
  /\ posts (effects (async_set_hvac_mode HVACMode_AUTO at_5s demo)) = [].
Proof.
  apply (unsupported_hvac_mode_logged_and_ignored HVACMode_AUTO at_5s demo);
    discriminate.
Defined.

(** ** The start-up and the keep-alive ticks after it *)

Lemma bind_returned {A B} (m : M A) (k : A -> M B) s b :
  outcome (bind m k s) = Returned b ->
  exists a, outcome (m s) = Returned a /\
            outcome (k a (final (m s))) = Returned b /\
            final (bind m k s) = final (k a (final (m s))).
Proof.
  rewrite outcome_bind, final_bind.
  destruct (outcome (m s)) as [a|e]; [|discriminate].
  intros H. exists a. auto.
Qed.

Lemma added_to_hass_last_state old s :
  outcome (async_added_to_hass old s) = Returned tt ->
  _last_state (final (async_added_to_hass old s))
  = Some (cur_state (final (async_added_to_hass old s))).
Proof.
  unfold async_added_to_hass. intros H.
  repeat match type of H with
         | outcome (bind _ _ _) = Returned _ =>
             apply bind_returned in H;
             destruct H as (? & _ & H & ->); cbv beta in H
         end.
  reflexivity.
Qed.

Lemma added_to_hass_fresh_returns s :
  outcome (async_added_to_hass None s) = Returned tt.
Proof.
  unfold async_added_to_hass.
  repeat (rewrite outcome_bind; cbn [get outcome final]).
  destruct (_keep_alive s) as [d|]; [destruct (negb (d =? 0)%Z)|];
    cbn [emit ret outcome final];
    (repeat (rewrite ?outcome_bind, ?final_bind; cbn [get emit outcome final]);
     destruct (is_None (_target_temp s));
     cbn [modify ret outcome final emit];
     match goal with
     | |- context [is_None (_hvac_mode ?x)] => destruct (is_None (_hvac_mode x))
     end; reflexivity).
Qed.

Lemma keep_alive_ticks_silent ticks : forall s last,
  _last_state s = Some last -> ACState_eqb last (cur_state s) = true ->
  posts (snd (run_calls (keep_alive_ticks ticks) s)) = [].
Proof.
  induction ticks as [|[now env] ticks IH]; intros s last Hl He;
    [reflexivity|].
  cbn [keep_alive_ticks map run_calls fst snd call]. unfold keep_alive_tick.
  destruct (reeval_unchanged (Some now) false env s last Hl He)
    as (_ & Hp & Hf).
  assert (Hnext : posts (snd (run_calls (keep_alive_ticks ticks)
                    (final (_async_control_heating (Some now) false env s))))
                  = []).
  { destruct Hf as [-> | ->]; apply (IH _ last);
      rewrite ?activated_last_state, ?activated_cur_state; assumption. }
  fold (keep_alive_ticks ticks).
  destruct (run_calls (keep_alive_ticks ticks) _) as [s' tr].
  cbn [snd] in *. rewrite posts_app, Hp, Hnext. reflexivity.
Qed.

(** ** C10: the gating clock starts at construction *)

Lemma forced_setter_posts f env s :
  posts (effects ((modify f ;;
                   _async_control_heating None true env ;;
                   emit WriteHaState) s))
  = posts (effects (_async_control_heating None true env (f s))).
Proof.
  rewrite effects_bind. cbn [modify outcome final effects app].
  rewrite effects_bind.
  destruct (outcome (_async_control_heating None true env (f s)));
    [|reflexivity].
  rewrite posts_app. cbn. apply app_nil_r.
Qed.

Lemma call_keeps_clock_not_before tc D c env :
  tc <= now_sent env -> keeps (clock_not_before tc D) (call c env).
Proof.
  intros Hle. apply keeps_call; unfold clock_not_before; cbn; intros; tauto.
Qed.

Lemma forced_reeval_before_cycle_silent tc D env s :
  D <> 0 -> now_gate env - tc < D -> clock_not_before tc D s ->
  posts (effects (_async_control_heating None true env s)) = [].
Proof.
  intros Hnz He [Hd Hle].
  apply (reeval_gated env s D Hd Hnz). unfold elapsed. lia.
Qed.

(** Claim C10.  [__init__] sets the last action time to the construction
    time although nothing has been sent; so, with [min_cycle_duration]
    configured as a (non-zero) [D], a forced user operation
    ([async_set_temperature] or [async_set_hvac_mode]) made less than [D]
    after construction sends no command, whatever calls came in between
    (their clock readings not preceding the construction), the very first
    command included. *)
Theorem construction_time_gating
    (name : string) (min_temp max_temp target_temp : option Temperature)
    (ac_mode : option bool) (D : timedelta) (keep_alive : option timedelta)
    (initial_hvac_mode : option HVACMode)
    (presets : list (string * Temperature))
    (rest_url username password : string) (tc : datetime)
    (cs : list (Call * Env)) (env : Env) :
  D <> 0 ->
  Forall (fun ce => tc <= now_sent (snd ce)) cs ->
  now_gate env - tc < D ->
  let s0 :=
    __init__ name min_temp max_temp target_temp ac_mode (Some D) keep_alive
      initial_hvac_mode presets rest_url username password tc in
  let s := fst (run_calls cs s0) in
  _last_control_action_time s0 = tc /\
  _last_state s0 = None /\
  (forall t : option Temperature,
      posts (effects (async_set_temperature t env s)) = []) /\
  (forall m : HVACMode,
      posts (effects (async_set_hvac_mode m env s)) = []).
Proof.
  intros Hnz Hcs He. cbv zeta.
  set (s0 := __init__ _ _ _ _ _ _ _ _ _ _ _ _ _).
  assert (Hs : clock_not_before tc D (fst (run_calls cs s0))).
  { apply run_calls_keeps.
    - eapply Forall_impl; [|exact Hcs].
      intros [c e] Hle. apply call_keeps_clock_not_before. exact Hle.
    - split; [reflexivity | cbn; lia]. }
  set (s := fst (run_calls cs s0)) in *.
  split; [reflexivity|]. split; [reflexivity|]. split.
  - intros [t|]; [|reflexivity].
    unfold async_set_temperature. rewrite forced_setter_posts.
    apply (forced_reeval_before_cycle_silent tc D); [assumption..|].
    exact Hs.
  - intros m. unfold async_set_hvac_mode.
    destruct m; cbn [HVACMode_eqb]; try reflexivity;
      rewrite forced_setter_posts;
      apply (forced_reeval_before_cycle_silent tc D); try assumption;
      exact Hs.
Qed.

Lemma construction_time_gating_witness :
  posts (effects (async_set_temperature (Some 23%Q) at_5s
                    (fst (run_calls [(AddedToHass None, at_5s)] demo_new))))
  = []
  /\ posts (effects (async_set_hvac_mode HVACMode_HEAT at_5s
                       (fst (run_calls [(AddedToHass None, at_5s)] demo_new))))
     = [].
Proof.
  destruct (construction_time_gating "AC Remote" None None (Some 22%Q)
              (Some true) 10000000 (Some 60000000) None [(PRESET_ECO, 18%Q)]
              "http://ac.local/control" "user" "secret" 1000000
              [(AddedToHass None, at_5s)] at_5s)
    as (_ & _ & Ht & Hm).
  - discriminate.
  - repeat constructor. cbn. lia.
  - cbn. lia.
  - split; [apply (Ht (Some 23%Q)) | apply (Hm HVACMode_HEAT)].
Defined.

(** ** Equations of the setters *)

Lemma setter_eq f time force env s :
  (modify f ;; _async_control_heating time force env ;; emit WriteHaState) s
  = then_notify [] (_async_control_heating time force env (f s)).
Proof.
  unfold bind, modify, emit, then_notify.
  destruct (_async_control_heating time force env (f s)) as [[[]|e] s' tr];
    reflexivity.
Qed.

Lemma set_hvac_mode_eq m env s :
  async_set_hvac_mode m env s =
  match m with
  | HVACMode_HEAT | HVACMode_COOL | HVACMode_OFF =>
      then_notify []
        (_async_control_heating None true env (set_hvac_mode (Some m) s))
  | _ => mkRun (Returned tt) s [Log ERROR "Unrecognized hvac mode: %s"]
  end.
Proof.
  unfold async_set_hvac_mode.
  destruct m; cbn [HVACMode_eqb]; try apply setter_eq; reflexivity.
Qed.

Lemma set_temperature_eq t env s :
  async_set_temperature t env s =
  match t with
  | Some v =>
      then_notify []
        (_async_control_heating None true env (set_target_temp (Some v) s))
  | None => mkRun (Returned tt) s []
  end.
Proof. destruct t; [apply setter_eq | reflexivity]. Qed.

Lemma set_preset_mode_eq p env s :
  async_set_preset_mode p env s =
  let entry := [Log INFO "Setting new preset mode: %s"] in
  if negb (str_in p (preset_modes s)) then mkRun (Raised ValueError) s entry
  else if String.eqb p (_attr_preset_mode s) then mkRun (Returned tt) s entry
  else if String.eqb p PRESET_NONE then
    then_notify entry
      (_async_control_heating None false env
         (set_target_temp (_saved_target_temp s)
            (set_attr_preset_mode PRESET_NONE s)))
  else
    let s1 := if String.eqb (_attr_preset_mode s) PRESET_NONE
              then set_saved_target_temp (_target_temp s) s else s in
    match dict_get p (_presets s) with
    | Some v =>
        then_notify entry
          (_async_control_heating None false env
             (set_target_temp (Some v) (set_attr_preset_mode p s1)))
    | None => mkRun (Raised KeyError) (set_attr_preset_mode p s1) entry
    end.
Proof.
  unfold async_set_preset_mode. cbv zeta.
  unfold bind at 1. cbn [emit]. unfold bind at 1. cbn [get].
  destruct (negb (str_in p (preset_modes s))); [reflexivity|].
  destruct (String.eqb p (_attr_preset_mode s)); [reflexivity|].
  destruct (String.eqb p PRESET_NONE).
  - unfold bind, modify, emit, then_notify.
    destruct (_async_control_heating None false env _) as [[[]|e] s' tr];
      reflexivity.
  - destruct (String.eqb (_attr_preset_mode s) PRESET_NONE);
      (destruct (dict_get p (_presets s)) as [v|]; [|reflexivity]);
      unfold bind, modify, emit, ret, then_notify;
      destruct (_async_control_heating None false env _) as [[[]|e] s' tr];
      reflexivity.
Qed.

(** ** Every runtime call is its own assignments and then at most one
    re-evaluation *)

Lemma final_then_notify pre r : final (then_notify pre r) = final r.
Proof. unfold then_notify. destruct (outcome r); reflexivity. Qed.

Lemma outcome_then_notify pre r : outcome (then_notify pre r) = outcome r.
Proof. unfold then_notify. destruct (outcome r) as [[]|e]; reflexivity. Qed.

Lemma posts_then_notify pre r :
  posts (effects (then_notify pre r)) = (posts pre ++ posts (effects r))%list.
Proof.
  unfold then_notify. destruct (outcome r); cbn [effects];
    rewrite !posts_app; cbn [posts]; rewrite ?app_nil_r; reflexivity.
Qed.

Lemma call_final c env s :
  runtime c ->
  final (call c env s) =
  if snd (prepared c s)
  then final (_async_control_heating (call_time c) (call_force c) env
                (fst (prepared c s)))
  else fst (prepared c s).
Proof.
  destruct c as [old|m|t|p|now]; cbn [runtime call]; intros Hr;
    [contradiction| | | |reflexivity].
  - rewrite set_hvac_mode_eq. destruct m; cbn [prepared fst snd final];
      rewrite ?final_then_notify; reflexivity.
  - rewrite set_temperature_eq. destruct t; cbn [prepared fst snd final];
      rewrite ?final_then_notify; reflexivity.
  - rewrite set_preset_mode_eq. cbv zeta. cbn [prepared].
    destruct (negb (str_in p (preset_modes s))); [reflexivity|].
    destruct (String.eqb p (_attr_preset_mode s)); [reflexivity|].
    destruct (String.eqb p PRESET_NONE);
      [cbn [fst snd]; apply final_then_notify|].
    destruct (dict_get p (_presets s)); cbn [fst snd final];
      rewrite ?final_then_notify; reflexivity.
Qed.

Lemma call_posts c env s :
  runtime c ->
  posts (effects (call c env s)) =
  if snd (prepared c s)
  then posts (effects (_async_control_heating (call_time c) (call_force c) env
                         (fst (prepared c s))))
  else [].
Proof.
  destruct c as [old|m|t|p|now]; cbn [runtime call]; intros Hr;
    [contradiction| | | |reflexivity].
  - rewrite set_hvac_mode_eq. destruct m; cbn [prepared fst snd effects];
      rewrite ?posts_then_notify; reflexivity.
  - rewrite set_temperature_eq. destruct t; cbn [prepared fst snd effects];
      rewrite ?posts_then_notify; reflexivity.
  - rewrite set_preset_mode_eq. cbv zeta. cbn [prepared].
    destruct (negb (str_in p (preset_modes s))); [reflexivity|].
    destruct (String.eqb p (_attr_preset_mode s)); [reflexivity|].
    destruct (String.eqb p PRESET_NONE);
      [cbn [fst snd]; apply posts_then_notify|].
    destruct (dict_get p (_presets s)); cbn [fst snd effects];
      rewrite ?posts_then_notify; reflexivity.
Qed.

Lemma reeval_summary time force env s :
  let r := _async_control_heating time force env s in
  (posts (effects r) = [] /\ (final r = s \/ final r = activated s))
  \/ (exists last,
         _last_state s = Some last /\
         ACState_eqb last (cur_state s) = false /\
         outcome r = Returned tt /\
         posts (effects r) = [command_payload last s] /\
         final r = sent_state env (activated s)).
Proof.
  cbv zeta. rewrite reeval_eq.
  destruct (negb (_active s) && is_None (_target_temp s)); [left; cbn; auto|].
  destruct (gated time force env s);
    [left; cbn [effects final]; rewrite posts_activation_log; auto|].
  destruct (_last_state s) as [last|].
  - destruct (ACState_eqb last (cur_state s)) eqn:He.
    + left. cbn [effects final]. rewrite posts_activation_log. auto.
    + right. exists last. cbn [outcome effects final].
      rewrite posts_app, posts_activation_log. cbn [posts app].
      rewrite posts_send_effects. auto.
  - left. cbn [effects final]. rewrite posts_app, posts_activation_log. auto.
Qed.

Lemma prepared_last_state c s :
  _last_state (fst (prepared c s)) = _last_state s.
Proof.
  destruct c as [old|m|[t|]|p|now]; cbn [prepared]; try reflexivity.
  - destruct m; reflexivity.
  - destruct (negb (str_in p (preset_modes s))); [reflexivity|].
    destruct (String.eqb p (_attr_preset_mode s)); [reflexivity|].
    destruct (String.eqb p PRESET_NONE); [reflexivity|].
    destruct (String.eqb (_attr_preset_mode s) PRESET_NONE),
      (dict_get p (_presets s)); reflexivity.
Qed.

(** What one runtime call does to the last-sent state and the wire. *)
Lemma call_summary c env s :
  runtime c ->
  let r := call c env s in
  (posts (effects r) = [] /\ _last_state (final r) = _last_state s)
  \/ (exists last s',
         _last_state s = Some last /\
         ACState_eqb last (cur_state s') = false /\
         posts (effects r) = [command_payload last s'] /\
         final r = sent_state env (activated s')).
Proof.
  intros Hr. cbv zeta. rewrite (call_final c env s Hr), (call_posts c env s Hr).
  pose proof (prepared_last_state c s) as Hl.
  destruct (prepared c s) as [s' reached]. cbn [fst snd] in *.
  destruct reached; [|left; auto].
  destruct (reeval_summary (call_time c) (call_force c) env s')
    as [(Hp & Hf) | (last & Hlast & Hne & _ & Hp & Hf)].
  - left. split; [exact Hp|].
    destruct Hf as [-> | ->]; rewrite ?activated_last_state; exact Hl.
  - right. exists last, s'. rewrite <- Hl. auto.
Qed.

(** ** One request per call at most *)

Section Emits.
Variable Q : Effect -> Prop.

Lemma emits_ret {A} (a : A) : emits Q (ret a).
Proof. intros s. constructor. Qed.

Lemma emits_get : emits Q get.
Proof. intros s. constructor. Qed.

Lemma emits_modify f : emits Q (modify f).
Proof. intros s. constructor. Qed.

Lemma emits_raise {A} e : emits Q (@raise A e).
Proof. intros s. constructor. Qed.

Lemma emits_emit e : Q e -> emits Q (emit e).
Proof. intros He s. repeat constructor. exact He. Qed.

Lemma emits_bind {A B} (m : M A) (k : A -> M B) :
  emits Q m -> (forall a, emits Q (k a)) -> emits Q (bind m k).
Proof.
  intros Hm Hk s. rewrite effects_bind.
  destruct (outcome (m s)); [|apply Hm].
  apply Forall_app. split; [apply Hm | apply Hk].
Qed.
End Emits.

Ltac emits_step :=
  lazymatch goal with
  | |- emits _ (bind _ _) => apply emits_bind; [|intros ?]
  | |- emits _ (ret _) => apply emits_ret
  | |- emits _ get => apply emits_get
  | |- emits _ (raise _) => apply emits_raise
  | |- emits _ (modify _) => apply emits_modify
  | |- emits _ (emit _) => apply emits_emit; exact I
  | |- emits _ (if ?b then _ else _) => destruct b
  | |- emits _ (match ?x with _ => _ end) => destruct x
  end.

Lemma added_to_hass_emits_no_post old : emits no_post (async_added_to_hass old).
Proof. unfold async_added_to_hass. repeat emits_step. Qed.

Lemma no_post_posts tr : Forall no_post tr -> posts tr = [].
Proof.
  induction 1 as [|e tr He _ IH]; [reflexivity|].
  destruct e; cbn in *; [exact IH | contradiction | exact IH | exact IH].
Qed.

Lemma call_at_most_one_post c env s :
  (List.length (posts (effects (call c env s))) <= 1)%nat.
Proof.
  destruct c as [old|m|t|p|now].
  - cbn [call]. rewrite (no_post_posts _ (added_to_hass_emits_no_post old s)).
    cbn. lia.
  - rewrite call_posts by exact I.
    destruct (snd (prepared (SetHvacMode m) s));
      [apply reeval_at_most_one_post | cbn; lia].
  - rewrite call_posts by exact I.
    destruct (snd (prepared (SetTemperature t) s));
      [apply reeval_at_most_one_post | cbn; lia].
  - rewrite call_posts by exact I.
    destruct (snd (prepared (SetPresetMode p) s));
      [apply reeval_at_most_one_post | cbn; lia].
  - apply reeval_at_most_one_post.
Qed.

Lemma run_calls_cons c env cs s :
  run_calls ((c, env) :: cs) s =
  (fst (run_calls cs (final (call c env s))),
   (effects (call c env s) ++ snd (run_calls cs (final (call c env s))))%list).
Proof.
  cbn [run_calls]. destruct (run_calls cs (final (call c env s))). reflexivity.
Qed.

(** X1.  The start-up performs no request, any other call at most one, so
    a run of calls performs no more requests than it has calls. *)
Theorem requests_bounded_by_calls (cs : list (Call * Env)) (s : ACRemoteControl) :
  (forall old_state : option State,
      posts (effects (async_added_to_hass old_state s)) = []) /\
  (List.length (posts (snd (run_calls cs s))) <= List.length cs)%nat.
Proof.
  split.
  - intros old. apply no_post_posts, added_to_hass_emits_no_post.
  - revert s. induction cs as [|[c env] cs IH]; intros s; [cbn; lia|].
    rewrite run_calls_cons. cbn [snd List.length].
    rewrite posts_app, length_app.
    pose proof (call_at_most_one_post c env s).
    specialize (IH (final (call c env s))). lia.
Qed.

(** ** The power toggles of a run *)

Lemma command_payload_toggle last s :
  xorb (power_of last) (pl_power_toggle (command_payload last s))
  = pl_power (command_payload last s).
Proof.
  unfold power_of, command_payload.
  cbn [pl_power_toggle pl_power].
  destruct (mode_is (mode last) HVACMode_OFF),
    (mode_is (_hvac_mode s) HVACMode_OFF); reflexivity.
Qed.

Lemma last_nonempty {A} (l : list A) : forall b d d',
  List.last (b :: l) d = List.last (b :: l) d'.
Proof.
  induction l as [|c l IH]; intros b d d'; [reflexivity|].
  change (List.last (c :: l) d = List.last (c :: l) d'). apply IH.
Qed.

Lemma run_calls_toggles_track cs : forall s last0,
  Forall (fun ce => runtime (fst ce)) cs ->
  _last_state s = Some last0 ->
  toggles_track (power_of last0) (posts (snd (run_calls cs s))) /\
  exists last', _last_state (fst (run_calls cs s)) = Some last' /\
                power_of last'
                = List.last (map pl_power (posts (snd (run_calls cs s))))
                            (power_of last0).
Proof.
  induction cs as [|[c env] cs IH]; intros s last0 Hcs Hl.
  - cbn. split; [exact I|]. exists last0. auto.
  - inversion Hcs as [|x l Hc Hcs']; subst. cbn [fst] in Hc.
    rewrite run_calls_cons. cbn [fst snd]. rewrite posts_app.
    destruct (call_summary c env s Hc)
      as [(Hp & Hf) | (l0 & s' & Hl0 & Hne & Hp & Hf)].
    + rewrite Hp. cbn [app]. apply IH; [exact Hcs'|]. rewrite Hf. exact Hl.
    + rewrite Hl in Hl0. injection Hl0 as <-.
      rewrite Hp. cbn [app toggles_track map].
      destruct (IH (final (call c env s)) (cur_state (activated s')) Hcs')
        as (Ht & last' & Hl' & Hpow).
      { rewrite Hf. reflexivity. }
      assert (Hsame : power_of (cur_state (activated s'))
                      = pl_power (command_payload last0 s')).
      { rewrite activated_cur_state. reflexivity. }
      rewrite Hsame in Ht, Hpow.
      split; [split; [apply command_payload_toggle | exact Ht]|].
      exists last'. split; [exact Hl'|]. rewrite Hpow.
      destruct (map pl_power (posts (snd (run_calls cs (final (call c env s))))))
        as [|b l]; [reflexivity|].
      change (List.last (b :: l) (pl_power (command_payload last0 s'))
              = List.last (b :: l) (power_of last0)).
      apply last_nonempty.
Qed.

(** ** The start-up in one equation *)

Lemma added_to_hass_run old s :
  exists tr,
    async_added_to_hass old s =
    match startup_target s old with
    | None => mkRun (Raised OverflowError) s tr
    | Some t =>
        let s2 := set_attr_preset_mode (startup_preset s old)
                    (set_target_temp (Some t) s) in
        match startup_mode s old with
        | Some m =>
            mkRun (Returned tt)
              (set_last_state (Some (mkACState (Some t) (Some m)))
                 (set_hvac_mode (Some m) s2))
              tr
        | None => mkRun (Raised ValueError) s2 tr
        end
    end.
Proof.
  unfold async_added_to_hass, startup_target, startup_preset, startup_mode,
    preset_modes.
  destruct s as [n am mcd ka hm stt hms act mn mx pm tt' pms ps ok lt ls u us pw].
  unfold bind at 1. cbn [get].
  cbn [_keep_alive _target_temp _attr_preset_modes _hvac_mode _attr_preset_mode].
  destruct ka as [d|]; [destruct (negb (d =? 0)%Z)|];
    (destruct old as [[st at_ ap]|];
     cbn [attr_temperature attr_preset_mode state];
     [ destruct tt' as [t|], at_ as [a|], ap as [p|], hm as [m|];
       cbn [is_None opt_str_in andb negb];
       try destruct (float a) as [x|] eqn:Hfl;
       try destruct (negb (Nat.eqb (List.length pms) 0)) eqn:Hlen;
       try destruct (str_in p pms) eqn:Hin;
       try destruct (String.eqb st "") eqn:Hst;
       try destruct (HVACMode_of_value st) as [m'|] eqn:Hm;
       try (destruct pms; [discriminate Hin | discriminate Hlen]);
       cbn; eexists; reflexivity
     | destruct tt' as [t|], hm as [m|]; cbn; eexists; reflexivity ]).
Qed.

(** ** Activation *)

(** X2.  A re-evaluation leaves the machine active exactly when it was
    active or has a target temperature; a machine that is neither is left
    untouched, with no effect at all; and once active the machine stays
    active through any run of calls. *)
Theorem activation_is_permanent (s : ACRemoteControl) :
  (forall (time : option datetime) (force : bool) (env : Env),
      let r := _async_control_heating time force env s in
      _active (final r) = _active s || negb (is_None (_target_temp s)) /\
      (_active s = false -> _target_temp s = None ->
       r = mkRun (Returned tt) s [])) /\
  (forall cs : list (Call * Env),
      _active s = true -> _active (fst (run_calls cs s)) = true).
Proof.
  split.
  - intros time force env. cbv zeta. split.
    + pose proof (activated_active s) as Hact.
      assert (Hsent : _active (sent_state env (activated s))
                      = _active s || negb (is_None (_target_temp s)))
        by exact Hact.
      rewrite reeval_eq.
      destruct (negb (_active s) && is_None (_target_temp s)) eqn:Hin.
      * cbn [final]. apply andb_prop in Hin. destruct Hin as [Ha Ht].
        rewrite Ht. destruct (_active s); [discriminate Ha | reflexivity].
      * destruct (gated time force env s); [exact Hact|].
        destruct (_last_state s) as [last|];
          [destruct (ACState_eqb last (cur_state s))|];
          cbn [final]; assumption.
    + intros Ha Ht. rewrite reeval_eq, Ha, Ht. reflexivity.
  - intros cs Ha.
    apply (run_calls_keeps (fun x => _active x = true)); [|exact Ha].
    apply Forall_forall. intros [c env] _.
    apply keeps_call; intros; assumption || reflexivity.
Qed.

Lemma activation_is_permanent_witness :
  _active (final (keep_alive_tick 61000000 at_61s demo)) = true
  /\ _active (fst (run_calls [(SetTemperature (Some 23%Q), at_5s)]
                     (final (keep_alive_tick 61000000 at_61s demo)))) = true.
Proof.
  split.
  - apply (activation_is_permanent demo).
  - apply (proj2 (activation_is_permanent
                    (final (keep_alive_tick 61000000 at_61s demo)))).
    apply (activation_is_permanent demo).
Defined.

(** ** Before the start-up *)

Lemma reeval_never_notifies time force env s :
  ~ In WriteHaState (effects (_async_control_heating time force env s)).
Proof.
  rewrite reeval_eq. unfold activation_log, send_effects.
  destruct (negb (_active s) && is_None (_target_temp s)); [cbn; tauto|].
  destruct (gated time force env s), (activates s), (post_ok env);
    try (destruct (_last_state s) as [last|];
         [destruct (ACState_eqb last (cur_state s))|]);
    cbn; intuition discriminate.
Qed.

(** X3.  With no last-sent state (the entity was constructed but the
    start-up has not run), a re-evaluation that is active and not held
    back logs the change and raises [AttributeError]: nothing is posted
    and only [_active] may have been written. *)
Theorem reevaluation_without_last_state_raises
    (s : ACRemoteControl) (time : option datetime) (force : bool) (env : Env) :
  _last_state s = None ->
  _active s = true \/ _target_temp s <> None ->
  gated time force env s = false ->
  let r := _async_control_heating time force env s in
  outcome r = Raised AttributeError /\ posts (effects r) = [] /\
  In (Log INFO "Something changed: %s") (effects r) /\
  final r = activated s.
Proof.
  intros Hl Ha Hg. cbv zeta.
  rewrite reeval_eq, (not_inactive s Ha), Hg, Hl. cbn [outcome final effects].
  rewrite posts_app, posts_activation_log. repeat split.
  apply in_or_app. right. left. reflexivity.
Qed.

Lemma reevaluation_without_last_state_raises_witness :
  outcome (keep_alive_tick 61000000 at_61s demo_new) = Raised AttributeError
  /\ posts (effects (keep_alive_tick 61000000 at_61s demo_new)) = []
  /\ In (Log INFO "Something changed: %s")
        (effects (keep_alive_tick 61000000 at_61s demo_new))
  /\ final (keep_alive_tick 61000000 at_61s demo_new) = activated demo_new.
Proof.
  apply (reevaluation_without_last_state_raises demo_new (Some 61000000)
           false at_61s).
  - reflexivity.
  - right. discriminate.
  - reflexivity.
Defined.

(** X4.  A setter called before the start-up keeps its assignment although
    the re-evaluation raises: [async_set_temperature] outside the minimum
    cycle, and [async_set_preset_mode] with a preset of the table, end in
    [AttributeError] with the new target temperature (and preset) stored,
    nothing posted and the host not notified. *)
Theorem setters_before_startup_raise_after_assigning
    (s : ACRemoteControl) (env : Env) :
  _last_state s = None ->
  (forall t : Temperature,
      gated None true env s = false ->
      let r := async_set_temperature (Some t) env s in
      outcome r = Raised AttributeError /\ _target_temp (final r) = Some t /\
      posts (effects r) = [] /\ ~ In WriteHaState (effects r)) /\
  (forall (p : string) (v : Temperature),
      str_in p (preset_modes s) = true ->
      p <> _attr_preset_mode s -> p <> PRESET_NONE ->
      dict_get p (_presets s) = Some v ->
      let r := async_set_preset_mode p env s in
      outcome r = Raised AttributeError /\ _target_temp (final r) = Some v /\
      _attr_preset_mode (final r) = p /\
      posts (effects r) = [] /\ ~ In WriteHaState (effects r)).
Proof.
  intros Hl. split.
  - intros t Hg. cbv zeta. rewrite set_temperature_eq.
    set (x := set_target_temp (Some t) s).
    assert (Hl' : _last_state x = None) by exact Hl.
    assert (Hg' : gated None true env x = false) by exact Hg.
    assert (Ha' : _active x = true \/ _target_temp x <> None)
      by (right; discriminate).
    destruct (reevaluation_without_last_state_raises x None true env
                Hl' Ha' Hg') as (Ho & Hp & _ & Hf).
    unfold then_notify. rewrite Ho. cbn [outcome final effects app].
    rewrite Hp, Hf. repeat split.
    + unfold activated. destruct (activates x); reflexivity.
    + apply reeval_never_notifies.
  - intros p v Hin Hcur Hnone Hget. cbv zeta.
    rewrite set_preset_mode_eq. cbv zeta. rewrite Hin. cbn [negb].
    rewrite (proj2 (String.eqb_neq _ _) Hcur).
    rewrite (proj2 (String.eqb_neq _ _) Hnone).
    rewrite Hget.
    set (x := set_target_temp (Some v)
                (set_attr_preset_mode p
                   (if String.eqb (_attr_preset_mode s) PRESET_NONE
                    then set_saved_target_temp (_target_temp s) s else s))).
    assert (Hl' : _last_state x = None).
    { unfold x. destruct (String.eqb (_attr_preset_mode s) PRESET_NONE);
        exact Hl. }
    assert (Ha' : _active x = true \/ _target_temp x <> None)
      by (right; discriminate).
    assert (Hg' : gated None false env x = false) by reflexivity.
    destruct (reevaluation_without_last_state_raises x None false env
                Hl' Ha' Hg') as (Ho & Hp & _ & Hf).
    unfold then_notify. rewrite Ho. cbn [outcome final effects app posts].
    rewrite Hp, Hf. repeat split.
    + unfold activated. destruct (activates x); reflexivity.
    + unfold activated. destruct (activates x); reflexivity.
    + intros [H|H]; [discriminate H|].
      revert H. apply reeval_never_notifies.
Qed.

Lemma setters_before_startup_raise_after_assigning_witness :
  (outcome (async_set_temperature (Some 23%Q) at_12s demo_new)
   = Raised AttributeError
   /\ _target_temp (final (async_set_temperature (Some 23%Q) at_12s demo_new))
      = Some 23%Q
   /\ posts (effects (async_set_temperature (Some 23%Q) at_12s demo_new)) = []
   /\ ~ In WriteHaState
          (effects (async_set_temperature (Some 23%Q) at_12s demo_new)))
  /\ outcome (async_set_preset_mode PRESET_ECO at_5s demo_new)
     = Raised AttributeError.
Proof.
  destruct (setters_before_startup_raise_after_assigning demo_new at_12s
              eq_refl) as (Ht & _).
  destruct (setters_before_startup_raise_after_assigning demo_new at_5s
              eq_refl) as (_ & Hp).
  split.
  - apply (Ht 23%Q). reflexivity.
  - apply (Hp PRESET_ECO 18%Q); [reflexivity | discriminate | discriminate
                                 | reflexivity].
Defined.

(** ** After the start-up *)

Lemma reeval_returns time force env s :
  _last_state s <> None ->
  outcome (_async_control_heating time force env s) = Returned tt.
Proof.
  intros Hl. rewrite reeval_eq.
  destruct (negb (_active s) && is_None (_target_temp s)); [reflexivity|].
  destruct (gated time force env s); [reflexivity|].
  destruct (_last_state s) as [last|]; [|congruence].
  destruct (ACState_eqb last (cur_state s)); reflexivity.
Qed.

Lemma in_keys_dict_get {V : Type} k (d : list (string * V)) :
  In k (dict_keys d) -> exists v, dict_get k d = Some v.
Proof.
  induction d as [|[k' v'] d IH]; cbn; [contradiction|].
  destruct (String.eqb_spec k k') as [->|Hne]; [eauto|].
  intros [H|H]; [congruence | auto].
Qed.

Lemma started_reeval time force env s :
  started s -> started (final (_async_control_heating time force env s)).
Proof.
  intros Hs.
  assert (Ha : started (activated s))
    by (unfold activated; destruct (activates s); exact Hs).
  destruct (reeval_summary time force env s)
    as [(_ & [-> | ->]) | (last & _ & _ & _ & _ & ->)]; try assumption.
  destruct Ha as (_ & Ht & Hp & Hc).
  repeat split; try assumption. discriminate.
Qed.

Lemma started_prepared c s :
  started s -> started (fst (prepared c s)).
Proof.
  intros (Hl & Ht & Hp & Hc).
  destruct c as [old|m|[t|]|p|now]; cbn [prepared fst];
    try (repeat split; assumption).
  - destruct m; cbn [fst]; repeat split; assumption.
  - repeat split; try assumption. discriminate.
  - destruct (negb (str_in p (preset_modes s)));
      [repeat split; assumption|].
    destruct (String.eqb_spec p (_attr_preset_mode s)) as [Heq|Hne];
      [repeat split; assumption|].
    destruct (String.eqb_spec p PRESET_NONE) as [->|Hnone]; cbn [fst].
    + repeat split; try assumption; [|left; reflexivity].
      destruct Hp as [Hp|Hp]; [congruence | exact Hp].
    + assert (Hs1 : _saved_target_temp
                      (if String.eqb (_attr_preset_mode s) PRESET_NONE
                       then set_saved_target_temp (_target_temp s) s else s)
                    <> None).
      { destruct (String.eqb_spec (_attr_preset_mode s) PRESET_NONE)
          as [Hcur|Hcur]; [exact Ht|].
        destruct Hp as [Hp|Hp]; [contradiction | exact Hp]. }
      destruct (String.eqb (_attr_preset_mode s) PRESET_NONE),
        (dict_get p (_presets s)); cbn [fst];
        repeat split; try assumption; try discriminate; right; exact Hs1.
Qed.

Lemma call_keeps_started c env s :
  runtime c -> started s -> started (final (call c env s)).
Proof.
  intros Hr Hs. rewrite (call_final c env s Hr).
  pose proof (started_prepared c s Hs) as Hp.
  destruct (snd (prepared c s)); [apply started_reeval|]; exact Hp.
Qed.

(** X5.  Once started, no runtime call raises [AttributeError] or
    [KeyError]: the only exception is the [ValueError] of
    [async_set_preset_mode] for a name outside the preset modes; and the
    entity stays started. *)
Theorem started_calls_raise_only_for_unknown_preset
    (s : ACRemoteControl) (c : Call) (env : Env) :
  started s -> runtime c ->
  started (final (call c env s)) /\
  (forall e : Exception,
      outcome (call c env s) = Raised e ->
      e = ValueError /\
      exists p, c = SetPresetMode p /\ ~ In p (preset_modes s)).
Proof.
  intros Hs Hr. split; [apply call_keeps_started; assumption|].
  destruct Hs as (Hl & Ht & Hp & Hc). intros e.
  destruct c as [old|m|t|p|now]; cbn [runtime call] in *; [contradiction| | | |].
  - rewrite set_hvac_mode_eq.
    destruct m; rewrite ?outcome_then_notify, ?reeval_returns;
      try exact Hl; discriminate.
  - rewrite set_temperature_eq.
    destruct t; rewrite ?outcome_then_notify, ?reeval_returns;
      try exact Hl; discriminate.
  - rewrite set_preset_mode_eq. cbv zeta.
    destruct (str_in p (preset_modes s)) eqn:Hin; cbn [negb outcome].
    + destruct (String.eqb p (_attr_preset_mode s)); [discriminate|].
      destruct (String.eqb_spec p PRESET_NONE) as [->|Hnone].
      * rewrite outcome_then_notify, reeval_returns; [discriminate|exact Hl].
      * apply str_in_spec in Hin. rewrite Hc in Hin.
        destruct Hin as [Hin|Hin]; [congruence|].
        destruct (in_keys_dict_get _ _ Hin) as [v ->].
        rewrite outcome_then_notify, reeval_returns; [discriminate|].
        destruct (String.eqb (_attr_preset_mode s) PRESET_NONE); exact Hl.
    + intros H. injection H as <-. split; [reflexivity|].
      exists p. split; [reflexivity|].
      intros Hp'. apply str_in_spec in Hp'. congruence.
  - unfold keep_alive_tick. rewrite reeval_returns; [discriminate|exact Hl].
Qed.

Lemma started_calls_raise_only_for_unknown_preset_witness :
  started (final (call (SetPresetMode "bogus") at_5s demo))
  /\ (forall e : Exception,
         outcome (call (SetPresetMode "bogus") at_5s demo) = Raised e ->
         e = ValueError /\
         exists p, SetPresetMode "bogus" = SetPresetMode p
                   /\ ~ In p (preset_modes demo)).
Proof.
  apply (started_calls_raise_only_for_unknown_preset demo
           (SetPresetMode "bogus") at_5s).
  - repeat split; try discriminate. left. reflexivity.
  - exact I.
Defined.

Lemma init_saved_target_temp
    name min_temp max_temp target_temp ac_mode min_cycle_duration keep_alive
    initial_hvac_mode presets rest_url username password now :
  presets <> [] ->
  _saved_target_temp
    (__init__ name min_temp max_temp target_temp ac_mode min_cycle_duration
       keep_alive initial_hvac_mode presets rest_url username password now)
  <> None.
Proof.
  intros Hne. cbn [__init__ _saved_target_temp].
  destruct target_temp as [t|]; cbn [temp_truthy].
  - destruct (negb (Qeq_bool t 0)); [discriminate|].
    destruct presets as [|[k v] ps]; [contradiction | discriminate].
  - destruct presets as [|[k v] ps]; [contradiction | discriminate].
Qed.

(** The start-up of a newly constructed entity, when it returns, leaves
    it started. *)
Lemma init_startup_started
    name min_temp max_temp target_temp ac_mode min_cycle_duration keep_alive
    initial_hvac_mode presets rest_url username password now old :
  let s0 := __init__ name min_temp max_temp target_temp ac_mode
              min_cycle_duration keep_alive initial_hvac_mode presets
              rest_url username password now in
  outcome (async_added_to_hass old s0) = Returned tt ->
  started (final (async_added_to_hass old s0)).
Proof.
  intros s0 Hret.
  destruct (added_to_hass_run old s0) as [tr Heq]. cbv zeta in Heq.
  rewrite Heq in Hret |- *.
  destruct (startup_target s0 old) as [t0|]; [|discriminate Hret].
  destruct (startup_mode s0 old) as [m|]; [|discriminate Hret].
  cbn [final]. unfold started, preset_modes_consistent, preset_modes.
  cbn [_last_state _target_temp _attr_preset_mode _saved_target_temp
       _attr_preset_modes _presets set_last_state set_hvac_mode
       set_attr_preset_mode set_target_temp].
  split; [discriminate|]. split; [discriminate|]. split.
  - unfold startup_preset.
    destruct old as [old'|]; [|left; reflexivity].
    destruct (attr_preset_mode old') as [p|]; [|left; reflexivity].
    destruct (str_in p (preset_modes s0)) eqn:Hin; [|left; reflexivity].
    destruct (String.eqb_spec p PRESET_NONE) as [->|Hp]; [left; reflexivity|].
    right. apply init_saved_target_temp.
    intros ->. cbn in Hin. rewrite orb_false_r in Hin.
    apply String.eqb_eq in Hin. contradiction.
  - apply (init_preset_modes_consistent name min_temp max_temp target_temp
             ac_mode min_cycle_duration keep_alive initial_hvac_mode presets
             rest_url username password now).
Qed.

Lemma run_calls_keeps_started cs : forall s,
  Forall (fun ce => runtime (fst ce)) cs -> started s ->
  started (fst (run_calls cs s)).
Proof.
  induction cs as [|[c env] cs IH]; intros s Hcs Hs; [exact Hs|].
  inversion Hcs as [|x l Hc Hcs']; subst. rewrite run_calls_cons. cbn [fst].
  apply IH; [exact Hcs'|]. apply call_keeps_started; assumption.
Qed.

Lemma run_calls_payload_temperature cs : forall s,
  Forall (fun ce => runtime (fst ce)) cs -> started s ->
  Forall (fun p => pl_temperature p <> None) (posts (snd (run_calls cs s))).
Proof.
  induction cs as [|[c env] cs IH]; intros s Hcs Hs; [constructor|].
  inversion Hcs as [|x l Hc Hcs']; subst. cbn [fst] in Hc.
  rewrite run_calls_cons. cbn [snd]. rewrite posts_app.
  apply Forall_app. split.
  - pose proof (call_keeps_started c env s Hc Hs) as (_ & Ht & _).
    destruct (call_summary c env s Hc)
      as [(-> & _) | (l0 & s' & _ & _ & -> & Hf)]; [constructor|].
    repeat constructor. rewrite Hf in Ht.
    cbn [command_payload pl_temperature].
    intros Hnone. apply Ht.
    unfold activated. destruct (activates s'); exact Hnone.
  - apply IH; [exact Hcs'|]. apply call_keeps_started; assumption.
Qed.

(** X6.  From construction on: when the start-up of a newly constructed
    entity returns, then after any run of runtime calls the target
    temperature is defined, every payload that was posted carries a
    temperature, and the last-sent state exists. *)
Theorem payloads_carry_a_temperature
    (name : string) (min_temp max_temp target_temp : option Temperature)
    (ac_mode : option bool) (min_cycle_duration keep_alive : option timedelta)
    (initial_hvac_mode : option HVACMode)
    (presets : list (string * Temperature))
    (rest_url username password : string) (now : datetime)
    (old_state : option State) (cs : list (Call * Env)) :
  let s0 := __init__ name min_temp max_temp target_temp ac_mode
              min_cycle_duration keep_alive initial_hvac_mode presets
              rest_url username password now in
  outcome (async_added_to_hass old_state s0) = Returned tt ->
  Forall (fun ce => runtime (fst ce)) cs ->
  let r := run_calls cs (final (async_added_to_hass old_state s0)) in
  Forall (fun p => pl_temperature p <> None) (posts (snd r)) /\
  _target_temp (fst r) <> None /\ _last_state (fst r) <> None.
Proof.
  intros s0 Hret Hcs r.
  pose proof (init_startup_started name min_temp max_temp target_temp ac_mode
                min_cycle_duration keep_alive initial_hvac_mode presets
                rest_url username password now old_state Hret) as Hs.
  split; [apply run_calls_payload_temperature; assumption|].
  destruct (run_calls_keeps_started cs _ Hcs Hs) as (Hl & Ht & _).
  split; assumption.
Qed.

Lemma payloads_carry_a_temperature_witness :
  Forall (fun p => pl_temperature p <> None)
    (posts (snd (run_calls [(SetPresetMode PRESET_ECO, at_12s)] demo)))
  /\ _target_temp (fst (run_calls [(SetPresetMode PRESET_ECO, at_12s)] demo))
     <> None
  /\ _last_state (fst (run_calls [(SetPresetMode PRESET_ECO, at_12s)] demo))
     <> None.
Proof.
  apply (payloads_carry_a_temperature "AC Remote" None None (Some 22%Q)
           (Some true) (Some 10000000) (Some 60000000) None
           [(PRESET_ECO, 18%Q)] "http://ac.local/control" "user" "secret"
           1000000 None [(SetPresetMode PRESET_ECO, at_12s)]).
  - reflexivity.
  - repeat constructor.
Defined.

(** ** The power toggles of a run *)

(** X7.  Over any run of runtime calls the toggles that were posted follow
    the power: starting from the power of the last-sent mode, each payload
    has [power_toggle] set exactly when its [power] differs from the power
    before it, and the last-sent mode at the end has the power of the
    last payload. *)
Theorem power_toggles_follow_power
    (s : ACRemoteControl) (last0 : ACState) (cs : list (Call * Env)) :
  _last_state s = Some last0 ->
  Forall (fun ce => runtime (fst ce)) cs ->
  let ps := posts (snd (run_calls cs s)) in
  toggles_track (power_of last0) ps /\
  exists last',
    _last_state (fst (run_calls cs s)) = Some last' /\
    power_of last' = List.last (map pl_power ps) (power_of last0).
Proof.
  intros Hl Hcs. apply run_calls_toggles_track; assumption.
Qed.

Lemma power_toggles_follow_power_witness :
  toggles_track false
    (posts (snd (run_calls [(SetHvacMode HVACMode_HEAT, at_12s);
                            (SetHvacMode HVACMode_COOL, at_61s);
                            (KeepAlive 61000000, at_61s)] demo)))
  /\ exists last',
      _last_state (fst (run_calls [(SetHvacMode HVACMode_HEAT, at_12s);
                                   (SetHvacMode HVACMode_COOL, at_61s);
                                   (KeepAlive 61000000, at_61s)] demo))
      = Some last'
      /\ power_of last'
         = List.last
             (map pl_power
                (posts (snd (run_calls [(SetHvacMode HVACMode_HEAT, at_12s);
                                        (SetHvacMode HVACMode_COOL, at_61s);
                                        (KeepAlive 61000000, at_61s)] demo))))
             false.
Proof.
  apply (power_toggles_follow_power demo
           (mkACState (Some 22%Q) (Some HVACMode_OFF))).
  - reflexivity.
  - repeat constructor.
Defined.

(** ** Presets *)

Lemma call_preset_attrs c env s :
  runtime c ->
  let s' := fst (prepared c s) in
  let f := final (call c env s) in
  _target_temp f = _target_temp s' /\
  _saved_target_temp f = _saved_target_temp s' /\
  _attr_preset_mode f = _attr_preset_mode s' /\
  _presets f = _presets s' /\ preset_modes f = preset_modes s'.
Proof.
  intros Hr. cbv zeta. rewrite (call_final c env s Hr).
  destruct (snd (prepared c s)); [|repeat split].
  apply (control_heating_keeps_preset_attrs (call_time c) (call_force c) env
           _ _ _ _ _ (fst (prepared c s))).
  repeat split.
Qed.

Lemma consistent_named_in s p v :
  preset_modes_consistent s -> dict_get p (_presets s) = Some v ->
  str_in p (preset_modes s) = true.
Proof.
  intros Hc Hget. apply str_in_spec. rewrite Hc. right.
  apply (dict_get_in_keys _ _ _ Hget).
Qed.

Lemma preset_named_step s p v env :
  preset_modes_consistent s -> p <> PRESET_NONE ->
  p <> _attr_preset_mode s -> dict_get p (_presets s) = Some v ->
  let f := final (async_set_preset_mode p env s) in
  _target_temp f = Some v /\
  _saved_target_temp f
  = (if String.eqb (_attr_preset_mode s) PRESET_NONE
     then _target_temp s else _saved_target_temp s) /\
  _attr_preset_mode f = p /\
  _presets f = _presets s /\ preset_modes_consistent f.
Proof.
  intros Hc Hnone Hcur Hget. cbv zeta.
  destruct (call_preset_attrs (SetPresetMode p) env s I)
    as (Ht & Hs & Hp & Hps & Hpms).
  cbn [call] in *. cbn [prepared] in *.
  rewrite (consistent_named_in s p v Hc Hget) in *. cbn [negb] in *.
  rewrite (proj2 (String.eqb_neq _ _) Hcur) in *.
  rewrite (proj2 (String.eqb_neq _ _) Hnone) in *.
  rewrite Hget in *. cbn [fst] in *.
  unfold preset_modes_consistent.
  rewrite Ht, Hs, Hp, Hps, Hpms.
  destruct (String.eqb (_attr_preset_mode s) PRESET_NONE); repeat split;
    exact Hc.
Qed.

Lemma preset_none_step s env :
  preset_modes_consistent s -> _attr_preset_mode s <> PRESET_NONE ->
  let f := final (async_set_preset_mode PRESET_NONE env s) in
  _target_temp f = _saved_target_temp s /\
  _saved_target_temp f = _saved_target_temp s /\
  _attr_preset_mode f = PRESET_NONE /\
  _presets f = _presets s /\ preset_modes_consistent f.
Proof.
  intros Hc Hcur. cbv zeta.
  destruct (call_preset_attrs (SetPresetMode PRESET_NONE) env s I)
    as (Ht & Hs & Hp & Hps & Hpms).
  cbn [call] in *. cbn [prepared] in *.
  assert (Hin : str_in PRESET_NONE (preset_modes s) = true)
    by (apply str_in_spec; rewrite Hc; left; reflexivity).
  rewrite Hin in *. cbn [negb] in *.
  assert (Hne : String.eqb PRESET_NONE (_attr_preset_mode s) = false)
    by (apply String.eqb_neq; congruence).
  rewrite Hne, String.eqb_refl in *. cbn [fst] in *.
  unfold preset_modes_consistent.
  rewrite Ht, Hs, Hp, Hps, Hpms. repeat split. exact Hc.
Qed.

Lemma temperature_step s t env :
  let f := final (async_set_temperature (Some t) env s) in
  _target_temp f = Some t /\
  _saved_target_temp f = _saved_target_temp s /\
  _attr_preset_mode f = _attr_preset_mode s /\
  _presets f = _presets s /\ preset_modes f = preset_modes s.
Proof.
  exact (call_preset_attrs (SetTemperature (Some t)) env s I).
Qed.

(** X8.  Setting the preset that is already on does nothing: the call
    returns with the state as it was and the entry log line as its only
    effect, so there is no re-evaluation, no request and no notification. *)
Theorem same_preset_is_noop (s : ACRemoteControl) (env : Env) :
  In (_attr_preset_mode s) (preset_modes s) ->
  async_set_preset_mode (_attr_preset_mode s) env s
  = mkRun (Returned tt) s [Log INFO "Setting new preset mode: %s"].
Proof.
  intros Hin. rewrite set_preset_mode_eq. cbv zeta.
  rewrite (proj2 (str_in_spec _ _) Hin), String.eqb_refl. reflexivity.
Qed.

Lemma same_preset_is_noop_witness :
  async_set_preset_mode PRESET_NONE at_5s demo
  = mkRun (Returned tt) demo [Log INFO "Setting new preset mode: %s"].
Proof.
  apply (same_preset_is_noop demo at_5s). left. reflexivity.
Defined.

(** X9.  The saved temperature is taken only when a preset is engaged
    from "none": going from "none" with target [T] to a preset [p1], then
    directly to another preset [p2], leaves [T] saved, and "none" then
    restores [T]. *)
Theorem preset_switch_keeps_saved_temperature
    (s : ACRemoteControl) (p1 p2 : string) (v1 v2 : Temperature)
    (env1 env2 env3 : Env) :
  preset_modes_consistent s -> _attr_preset_mode s = PRESET_NONE ->
  p1 <> PRESET_NONE -> p2 <> PRESET_NONE -> p1 <> p2 ->
  dict_get p1 (_presets s) = Some v1 -> dict_get p2 (_presets s) = Some v2 ->
  let s1 := final (async_set_preset_mode p1 env1 s) in
  let s2 := final (async_set_preset_mode p2 env2 s1) in
  let s3 := final (async_set_preset_mode PRESET_NONE env3 s2) in
  (_target_temp s2 = Some v2 /\ _attr_preset_mode s2 = p2 /\
   _saved_target_temp s2 = _target_temp s) /\
  (_target_temp s3 = _target_temp s /\ _attr_preset_mode s3 = PRESET_NONE).
Proof.
  intros Hc Hpm Hn1 Hn2 H12 Hg1 Hg2. cbv zeta.
  destruct (preset_named_step s p1 v1 env1 Hc Hn1)
    as (Ht1 & Hs1 & Hp1 & Hps1 & Hc1); [congruence | exact Hg1 |].
  rewrite Hpm, String.eqb_refl in Hs1.
  set (s1 := final (async_set_preset_mode p1 env1 s)) in *.
  destruct (preset_named_step s1 p2 v2 env2 Hc1 Hn2)
    as (Ht2 & Hs2 & Hp2 & Hps2 & Hc2);
    [rewrite Hp1; congruence | rewrite Hps1; exact Hg2 |].
  rewrite Hp1, (proj2 (String.eqb_neq _ _) Hn1), Hs1 in Hs2.
  set (s2 := final (async_set_preset_mode p2 env2 s1)) in *.
  destruct (preset_none_step s2 env3 Hc2) as (Ht3 & _ & Hp3 & _);
    [rewrite Hp2; exact Hn2|].
  rewrite Hs2 in Ht3. auto.
Qed.

(** X10.  [async_set_temperature] touches neither the preset mode nor the
    saved temperature, so a temperature set while a preset is on is
    displayed under that preset and is dropped when the preset goes back
    to "none": the target returns to the saved temperature. *)
Theorem temperature_set_under_preset_is_dropped
    (s : ACRemoteControl) (t : Temperature) (env1 env2 : Env) :
  preset_modes_consistent s -> _attr_preset_mode s <> PRESET_NONE ->
  let s1 := final (async_set_temperature (Some t) env1 s) in
  let s2 := final (async_set_preset_mode PRESET_NONE env2 s1) in
  (_target_temp s1 = Some t /\ _attr_preset_mode s1 = _attr_preset_mode s /\
   _saved_target_temp s1 = _saved_target_temp s) /\
  (_target_temp s2 = _saved_target_temp s /\
   _attr_preset_mode s2 = PRESET_NONE).
Proof.
  intros Hc Hpm. cbv zeta.
  destruct (temperature_step s t env1) as (Ht1 & Hs1 & Hp1 & Hps1 & Hpms1).
  set (s1 := final (async_set_temperature (Some t) env1 s)) in *.
  assert (Hc1 : preset_modes_consistent s1)
    by (unfold preset_modes_consistent; rewrite Hpms1, Hps1; exact Hc).
  destruct (preset_none_step s1 env2 Hc1) as (Ht2 & _ & Hp2 & _);
    [rewrite Hp1; exact Hpm|].
  rewrite Hs1 in Ht2. auto.
Qed.

Lemma preset_switch_keeps_saved_temperature_witness :
  (_target_temp
     (final (async_set_preset_mode PRESET_AWAY at_12s
               (final (async_set_preset_mode PRESET_ECO at_5s
                         demo_two_presets)))) = Some 16%Q
   /\ _attr_preset_mode
        (final (async_set_preset_mode PRESET_AWAY at_12s
                  (final (async_set_preset_mode PRESET_ECO at_5s
                            demo_two_presets)))) = PRESET_AWAY
   /\ _saved_target_temp
        (final (async_set_preset_mode PRESET_AWAY at_12s
                  (final (async_set_preset_mode PRESET_ECO at_5s
                            demo_two_presets)))) = Some 22%Q)
  /\ (_target_temp
        (final (async_set_preset_mode PRESET_NONE at_61s
                  (final (async_set_preset_mode PRESET_AWAY at_12s
                            (final (async_set_preset_mode PRESET_ECO at_5s
                                      demo_two_presets)))))) = Some 22%Q
      /\ _attr_preset_mode
           (final (async_set_preset_mode PRESET_NONE at_61s
                     (final (async_set_preset_mode PRESET_AWAY at_12s
                               (final (async_set_preset_mode PRESET_ECO at_5s
                                         demo_two_presets)))))) = PRESET_NONE).
Proof.
  apply (preset_switch_keeps_saved_temperature demo_two_presets
           PRESET_ECO PRESET_AWAY 18%Q 16%Q at_5s at_12s at_61s);
    try reflexivity; discriminate.
Defined.

Lemma temperature_set_under_preset_is_dropped_witness :
  (_target_temp (final (async_set_temperature (Some 25%Q) at_61s demo_eco))
   = Some 25%Q
   /\ _attr_preset_mode
        (final (async_set_temperature (Some 25%Q) at_61s demo_eco))
      = PRESET_ECO
   /\ _saved_target_temp
        (final (async_set_temperature (Some 25%Q) at_61s demo_eco))
      = Some 22%Q)
  /\ (_target_temp
        (final (async_set_preset_mode PRESET_NONE at_61s
                  (final (async_set_temperature (Some 25%Q) at_61s demo_eco))))
      = Some 22%Q
      /\ _attr_preset_mode
           (final (async_set_preset_mode PRESET_NONE at_61s
                     (final (async_set_temperature (Some 25%Q) at_61s
                               demo_eco))))
         = PRESET_NONE).
Proof.
  apply (temperature_set_under_preset_is_dropped demo_eco 25%Q at_61s at_61s).
  - reflexivity.
  - discriminate.
Defined.

(** ** The start-up *)

Lemma HVACMode_of_value_spec v m :
  HVACMode_of_value v = Some m -> HVACMode_value m = v.
Proof.
  unfold HVACMode_of_value. intros H.
  apply find_some in H. destruct H as [_ H].
  apply String.eqb_eq in H. exact H.
Qed.

(** The two conversions of the start-up, and when it returns. *)

Lemma float_of_float (x : Temperature) : float (PyFloat x) = Some x.
Proof. reflexivity. Qed.

Lemma float_of_small_int (z : Z) :
  (Z.abs z <= 2 ^ 53)%Z -> float (PyInt z) = Some (inject_Z z).
Proof.
  intros Hz. unfold float, double_of_int. cbv zeta.
  destruct (Z.ltb_spec (Z.abs z) (2 ^ 53)) as [Hlt|Hge]; [reflexivity|].
  assert (Habs : Z.abs z = (2 ^ 53)%Z) by (apply Z.le_antisymm; assumption).
  assert (Hcases : z = (2 ^ 53)%Z \/ z = (- 2 ^ 53)%Z).
  { destruct (Z.abs_eq_or_opp z) as [He|He]; rewrite He in Habs;
      [left; exact Habs | right; rewrite <- Habs; symmetry; apply Z.opp_involutive]. }
  destruct Hcases as [-> | ->]; vm_compute; reflexivity.
Qed.

Lemma float_rounds_large_ints :
  float (PyInt 9007199254740993) = Some (inject_Z 9007199254740992)
  /\ float (PyInt 9007199254740995) = Some (inject_Z 9007199254740996)
  /\ float (PyInt (- 9007199254740993)) = Some (inject_Z (- 9007199254740992))
  /\ float (PyInt (2 ^ 1024 - 2 ^ 970 - 1)) = Some (inject_Z (2 ^ 1024 - 2 ^ 971))
  /\ float (PyInt (2 ^ 1024 - 2 ^ 970)) = None
  /\ float (PyInt (2 ^ 1024)) = None.
Proof. vm_compute. repeat split. Qed.

Lemma startup_target_converts s old_state :
  stored_temperature_converts s old_state <-> startup_target s old_state <> None.
Proof.
  unfold stored_temperature_converts, startup_target.
  destruct (_target_temp s) as [t|].
  - split; [discriminate | intros _ H; discriminate H].
  - destruct old_state as [old|].
    + destruct (attr_temperature old) as [n|] eqn:Hn.
      * split.
        -- intros H. apply (H eq_refl old n); [reflexivity | exact Hn].
        -- intros H _ old' n' Ho Ha. injection Ho as <-.
           rewrite Hn in Ha. injection Ha as <-. exact H.
      * split; [discriminate | intros _ _ old' n' Ho Ha].
        injection Ho as <-. rewrite Hn in Ha. discriminate Ha.
    + split; [discriminate | intros _ _ old' n' Ho]. discriminate Ho.
Qed.

Lemma startup_mode_converts s old_state :
  stored_mode_converts s old_state <-> startup_mode s old_state <> None.
Proof.
  unfold stored_mode_converts, startup_mode.
  destruct (_hvac_mode s) as [m|].
  - split; [discriminate | intros _ H; discriminate H].
  - destruct old_state as [old|].
    + destruct (String.eqb_spec (state old) "") as [He|He].
      * split; [discriminate | intros _ _ old' Ho Hne].
        injection Ho as <-. contradiction.
      * split.
        -- intros H. apply (H eq_refl old); [reflexivity | exact He].
        -- intros H _ old' Ho _. injection Ho as <-. exact H.
    + split; [discriminate | intros _ _ old' Ho]. discriminate Ho.
Qed.

Lemma startup_returns_iff s old_state :
  outcome (async_added_to_hass old_state s) = Returned tt <->
  stored_temperature_converts s old_state /\ stored_mode_converts s old_state.
Proof.
  rewrite startup_target_converts, startup_mode_converts.
  destruct (added_to_hass_run old_state s) as [tr ->].
  destruct (startup_target s old_state) as [t|];
    [destruct (startup_mode s old_state) as [m|]|]; cbn [outcome].
  - split; [split; discriminate | reflexivity].
  - split; [discriminate | intros [_ H]; contradiction].
  - split; [discriminate | intros [H _]; contradiction].
Qed.

Lemma reeval_no_last_state_silent time force env s :
  _last_state s = None ->
  posts (effects (_async_control_heating time force env s)) = [] /\
  _last_state (final (_async_control_heating time force env s)) = None.
Proof.
  intros Hl.
  destruct (reeval_summary time force env s)
    as [(Hp & Hf) | (last & Hlast & _)]; [|congruence].
  split; [exact Hp|].
  destruct Hf as [-> | ->]; rewrite ?activated_last_state; exact Hl.
Qed.

Lemma keep_alive_ticks_silent_unstarted ticks : forall s,
  _last_state s = None ->
  posts (snd (run_calls (keep_alive_ticks ticks) s)) = [].
Proof.
  induction ticks as [|[now env] ticks IH]; intros s Hl; [reflexivity|].
  unfold keep_alive_ticks. cbn [map fst snd]. fold (keep_alive_ticks ticks).
  rewrite run_calls_cons. cbn [snd call]. unfold keep_alive_tick.
  destruct (reeval_no_last_state_silent (Some now) false env s Hl) as [Hp Hf].
  rewrite posts_app, Hp. cbn [app]. apply IH. exact Hf.
Qed.

(** ** C9: nothing is sent at start-up *)

(** Claim C9, refuted as stated: on a newly constructed sample entity with
    no initial mode, a stored state whose state string is "unavailable"
    makes the start-up stop before the last-sent state is set; it is not
    the current (target temperature, hvac mode) pair afterwards. *)
Lemma startup_leaves_last_state_unset :
  ~ startup_initialises_last_state demo_new (Some stored_unavailable).
Proof. unfold startup_initialises_last_state. cbn. discriminate. Qed.

(** Claim C9, amended.  Whenever what the start-up needs of the stored
    state can be used (a stored temperature that converts, when no target
    is configured; a stored state string that is empty or the value of an
    HVAC mode, when no initial mode is configured; in particular whenever
    nothing is stored), [async_added_to_hass] returns and leaves the
    last-sent state equal to the current (target temperature, hvac mode)
    pair, so that a re-evaluation of that state, however triggered,
    returns without a network call and without touching the last-sent
    state or the action time, and so does any run of keep-alive ticks:
    the restored or initial state is not sent unless the desired state
    changes.  For an entity without a last-sent state before the start-up,
    as the constructor leaves it, no re-evaluation and no run of
    keep-alive ticks after the start-up performs a network call, whatever
    was stored. *)
Theorem startup_send_suppression
    (s0 : ACRemoteControl) (old_state : option State) :
  let r := async_added_to_hass old_state s0 in
  let s := final r in
  (stored_temperature_converts s0 old_state ->
   stored_mode_converts s0 old_state ->
   outcome r = Returned tt /\
   _last_state s = Some (cur_state s) /\
   (forall (time : option datetime) (force : bool) (env : Env),
       let r' := _async_control_heating time force env s in
       outcome r' = Returned tt /\ posts (effects r') = [] /\
       _last_state (final r') = _last_state s /\
       _last_control_action_time (final r') = _last_control_action_time s) /\
   (forall ticks : list (datetime * Env),
       posts (snd (run_calls (keep_alive_ticks ticks) s)) = [])) /\
  (old_state = None ->
   stored_temperature_converts s0 old_state /\
   stored_mode_converts s0 old_state) /\
  (_last_state s0 = None ->
   (forall (time : option datetime) (force : bool) (env : Env),
       posts (effects (_async_control_heating time force env s)) = []) /\
   (forall ticks : list (datetime * Env),
       posts (snd (run_calls (keep_alive_ticks ticks) s)) = [])).
Proof.
  cbv zeta.
  assert (Hgood : outcome (async_added_to_hass old_state s0) = Returned tt ->
            let s := final (async_added_to_hass old_state s0) in
            _last_state s = Some (cur_state s) /\
            (forall time force env,
                let r' := _async_control_heating time force env s in
                outcome r' = Returned tt /\ posts (effects r') = [] /\
                _last_state (final r') = _last_state s /\
                _last_control_action_time (final r')
                = _last_control_action_time s) /\
            (forall ticks,
                posts (snd (run_calls (keep_alive_ticks ticks) s)) = [])).
  { intros Hret. cbv zeta.
    pose proof (added_to_hass_last_state old_state s0 Hret) as Hl.
    set (s := final (async_added_to_hass old_state s0)) in *.
    split; [exact Hl|]. split.
    - intros time force env.
      destruct (reeval_unchanged time force env s (cur_state s) Hl
                  (ACState_eqb_refl _)) as (Ho & Hp & Hf).
      repeat split; [exact Ho | exact Hp | |];
        destruct Hf as [-> | ->];
        rewrite ?activated_last_state, ?activated_last_time; reflexivity.
    - intros ticks.
      apply (keep_alive_ticks_silent ticks s (cur_state s) Hl).
      apply ACState_eqb_refl. }
  split; [|split].
  - intros Ht Hm.
    assert (Hret : outcome (async_added_to_hass old_state s0) = Returned tt)
      by (apply startup_returns_iff; split; assumption).
    split; [exact Hret | apply Hgood; exact Hret].
  - intros ->. split.
    + intros _ old n Ho. discriminate Ho.
    + intros _ old Ho. discriminate Ho.
  - intros Hl0.
    destruct (outcome (async_added_to_hass old_state s0)) as [[]|e] eqn:Hout.
    + destruct (Hgood eq_refl) as (_ & Hre & Hticks).
      split; [intros time force env; apply (Hre time force env) | exact Hticks].
    + assert (Hl : _last_state (final (async_added_to_hass old_state s0)) = None).
      { destruct (added_to_hass_run old_state s0) as [tr Heq].
        rewrite Heq in Hout |- *.
        destruct (startup_target s0 old_state) as [t|];
          [destruct (startup_mode s0 old_state) as [m|]|]; cbn [outcome final] in *;
          [discriminate Hout | exact Hl0 | exact Hl0]. }
      split.
      * intros time force env.
        apply (reeval_no_last_state_silent time force env _ Hl).
      * intros ticks. apply keep_alive_ticks_silent_unstarted. exact Hl.
Qed.

Lemma startup_send_suppression_witness :
  (outcome (async_added_to_hass (Some stored_cool_eco) demo_unconfigured)
   = Returned tt
   /\ _last_state
        (final (async_added_to_hass (Some stored_cool_eco) demo_unconfigured))
      = Some (mkACState (Some 21%Q) (Some HVACMode_COOL))
   /\ posts (snd (run_calls (keep_alive_ticks [(61000000, at_61s)])
                    (final (async_added_to_hass (Some stored_cool_eco)
                              demo_unconfigured)))) = [])
  /\ _last_state demo = Some (mkACState (Some 22%Q) (Some HVACMode_OFF))
  /\ posts (snd (run_calls (keep_alive_ticks [(61000000, at_61s)])
                   (final (async_added_to_hass (Some stored_unavailable)
                             demo_new)))) = [].
Proof.
  destruct (startup_send_suppression demo_unconfigured (Some stored_cool_eco))
    as (Hgood & _ & _).
  destruct (startup_send_suppression demo_new None) as (Hnew & Hnone & _).
  destruct (startup_send_suppression demo_new (Some stored_unavailable))
    as (_ & _ & Hany).
  split; [|split].
  - destruct Hgood as (Hret & Hl & _ & Hticks).
    + intros _ old n Ho Ha. injection Ho as <-. injection Ha as <-.
      discriminate.
    + intros _ old Ho _. injection Ho as <-. discriminate.
    + split; [exact Hret|].
      split; [exact Hl | apply (Hticks [(61000000, at_61s)])].
  - destruct (Hnone eq_refl) as [Ht Hm].
    destruct (Hnew Ht Hm) as (_ & Hl & _). exact Hl.
  - destruct (Hany eq_refl) as (_ & Hticks).
    apply (Hticks [(61000000, at_61s)]).
Defined.

(** ** What the start-up restores *)

(** X11.  The target temperature after the start-up: a configured target
    wins over the stored one; without a configured target the stored
    temperature is restored as [float(...)] makes it, a stored float as
    it is and a stored int exactly when its magnitude is at most 2^53
    (beyond, it is rounded to a double); a stored int too large for a
    float makes the start-up raise [OverflowError] with the state
    untouched; with neither a configured nor a stored temperature the
    target is the default of 24 degrees.  What is said of the target
    holds whether the start-up returns or raises later. *)
Theorem startup_target_temperature
    (s : ACRemoteControl) (old_state : option State) :
  let r := async_added_to_hass old_state s in
  (forall t, _target_temp s = Some t -> _target_temp (final r) = Some t) /\
  (_target_temp s = None ->
   forall old n, old_state = Some old -> attr_temperature old = Some n ->
     (forall x, float n = Some x -> _target_temp (final r) = Some x) /\
     (float n = None -> outcome r = Raised OverflowError /\ final r = s)) /\
  (_target_temp s = None ->
   old_state = None
   \/ (exists old, old_state = Some old /\ attr_temperature old = None) ->
   _target_temp (final r) = Some DEFAULT_TARGET_TEMPERATURE) /\
  (forall x : Temperature, float (PyFloat x) = Some x) /\
  (forall z : Z, (Z.abs z <= 2 ^ 53)%Z -> float (PyInt z) = Some (inject_Z z)).
Proof.
  cbv zeta. destruct (added_to_hass_run old_state s) as [tr Heq].
  assert (Hf : forall t, startup_target s old_state = Some t ->
                         _target_temp (final (async_added_to_hass old_state s))
                         = Some t).
  { intros t Ht. rewrite Heq, Ht.
    destruct (startup_mode s old_state); reflexivity. }
  assert (Hover : startup_target s old_state = None ->
                  outcome (async_added_to_hass old_state s)
                  = Raised OverflowError
                  /\ final (async_added_to_hass old_state s) = s).
  { intros Ht. rewrite Heq, Ht. split; reflexivity. }
  clear Heq. unfold startup_target in Hf, Hover.
  split; [|split; [|split; [|split]]].
  - intros t Ht. rewrite Ht in Hf. apply Hf. reflexivity.
  - intros Ht old n -> Hn. rewrite Ht, Hn in Hf, Hover. split.
    + intros x Hx. apply Hf. exact Hx.
    + exact Hover.
  - intros Ht [-> | (old & -> & Hn)]; rewrite Ht in Hf;
      [|rewrite Hn in Hf]; apply Hf; reflexivity.
  - exact float_of_float.
  - exact float_of_small_int.
Qed.

Lemma startup_target_temperature_witness :
  _target_temp (final (async_added_to_hass (Some stored_cool_eco) demo_new))
  = Some 22%Q
  /\ _target_temp
       (final (async_added_to_hass (Some stored_cool_eco) demo_unconfigured))
     = Some 21%Q
  /\ outcome (async_added_to_hass (Some stored_huge) demo_unconfigured)
     = Raised OverflowError
  /\ _target_temp (final (async_added_to_hass None demo_unconfigured))
     = Some DEFAULT_TARGET_TEMPERATURE
  /\ float (PyInt 22) = Some (inject_Z 22).
Proof.
  split; [|split; [|split; [|split]]].
  - apply (proj1 (startup_target_temperature demo_new (Some stored_cool_eco))
             22%Q eq_refl).
  - destruct (proj1 (proj2 (startup_target_temperature demo_unconfigured
                              (Some stored_cool_eco)))
                eq_refl stored_cool_eco (PyFloat 21%Q) eq_refl eq_refl)
      as [Hx _].
    apply Hx. reflexivity.
  - destruct (proj1 (proj2 (startup_target_temperature demo_unconfigured
                              (Some stored_huge)))
                eq_refl stored_huge (PyInt (2 ^ 1024)) eq_refl eq_refl)
      as [_ Hover].
    apply Hover. vm_compute. reflexivity.
  - apply (proj1 (proj2 (proj2 (startup_target_temperature demo_unconfigured
                                  None))) eq_refl).
    left. reflexivity.
  - apply (proj2 (proj2 (proj2 (proj2 (startup_target_temperature
                                         demo_unconfigured None))))).
    vm_compute. discriminate.
Defined.

(** X12.  The start-up raises in two cases only.  It raises [ValueError]
    exactly when the stored temperature, if needed, converts, no initial
    mode is configured and the stored state string is non-empty and not
    the value of an HVAC mode; the mode is then left undefined.  It raises
    [OverflowError] exactly when no target is configured and the stored
    temperature is an int too large for a float; the state is then
    untouched.  Either way the last-sent state is left as it was. *)
Theorem startup_raises_on_unknown_stored_state
    (s : ACRemoteControl) (old_state : option State) :
  let r := async_added_to_hass old_state s in
  (outcome r = Raised ValueError <->
   stored_temperature_converts s old_state /\
   _hvac_mode s = None /\
   exists old, old_state = Some old /\ state old <> "" /\
               HVACMode_of_value (state old) = None) /\
  (outcome r = Raised OverflowError <->
   _target_temp s = None /\
   exists old n, old_state = Some old /\ attr_temperature old = Some n /\
                 float n = None) /\
  (forall e, outcome r = Raised e ->
             (e = ValueError /\ _hvac_mode (final r) = None
              \/ e = OverflowError /\ final r = s) /\
             _last_state (final r) = _last_state s).
Proof.
  cbv zeta.
  pose proof (startup_target_converts s old_state) as Htc.
  destruct (added_to_hass_run old_state s) as [tr Heq]. rewrite Heq.
  assert (Hmode : startup_mode s old_state = None <->
                  _hvac_mode s = None /\
                  exists old, old_state = Some old /\ state old <> "" /\
                              HVACMode_of_value (state old) = None).
  { unfold startup_mode. destruct (_hvac_mode s) as [m|].
    - split; [discriminate | intros [H _]; discriminate H].
    - destruct old_state as [old|].
      + destruct (String.eqb_spec (state old) "") as [He|He].
        * split; [discriminate|].
          intros (_ & old' & Ho & Hne & _). injection Ho as <-. contradiction.
        * split.
          -- intros H. split; [reflexivity|]. exists old. auto.
          -- intros (_ & old' & Ho & _ & H). injection Ho as <-. exact H.
      + split; [discriminate|]. intros (_ & old' & Ho & _). discriminate Ho. }
  assert (Htarget : startup_target s old_state = None <->
                    _target_temp s = None /\
                    exists old n, old_state = Some old /\
                                  attr_temperature old = Some n /\
                                  float n = None).
  { unfold startup_target. destruct (_target_temp s) as [t|].
    - split; [discriminate | intros [H _]; discriminate H].
    - destruct old_state as [old|].
      + destruct (attr_temperature old) as [n|] eqn:Hn.
        * split.
          -- intros H. split; [reflexivity|]. exists old, n. auto.
          -- intros (_ & old' & n' & Ho & Hn' & H). injection Ho as <-.
             rewrite Hn in Hn'. injection Hn' as <-. exact H.
        * split; [discriminate|].
          intros (_ & old' & n' & Ho & Hn' & _). injection Ho as <-.
          rewrite Hn in Hn'. discriminate Hn'.
      + split; [discriminate|].
        intros (_ & old' & n' & Ho & _). discriminate Ho. }
  rewrite <- Hmode, <- Htarget, Htc. clear Htc.
  destruct (startup_target s old_state) as [t|].
  - destruct (startup_mode s old_state) as [m|] eqn:Hm; cbn [outcome final].
    + split; [split; [discriminate | intros [_ H]; discriminate H]|].
      split; [split; discriminate|]. intros e H. discriminate H.
    + split; [split; [intros _; split; [discriminate | reflexivity]
                     | reflexivity]|].
      split; [split; discriminate|].
      intros e H. injection H as <-. split; [|reflexivity].
      left. split; [reflexivity|]. apply Hmode. reflexivity.
  - cbn [outcome final].
    split; [split; [discriminate | intros [H _]; contradiction]|].
    split; [split; reflexivity|].
    intros e H. injection H as <-. split; [|reflexivity].
    right. split; reflexivity.
Qed.

Lemma startup_raises_on_unknown_stored_state_witness :
  outcome (async_added_to_hass (Some stored_unavailable) demo_new)
  = Raised ValueError
  /\ _last_state (final (async_added_to_hass (Some stored_unavailable) demo_new))
     = None
  /\ outcome (async_added_to_hass (Some stored_huge) demo_unconfigured)
     = Raised OverflowError.
Proof.
  destruct (startup_raises_on_unknown_stored_state demo_new
              (Some stored_unavailable)) as (Hiff & _ & Hraise).
  destruct (startup_raises_on_unknown_stored_state demo_unconfigured
              (Some stored_huge)) as (_ & Hover & _).
  assert (H : outcome (async_added_to_hass (Some stored_unavailable) demo_new)
              = Raised ValueError).
  { apply Hiff. split; [|split; [reflexivity|]].
    - intros Ht. discriminate Ht.
    - exists stored_unavailable.
      split; [reflexivity | split; [discriminate | reflexivity]]. }
  split; [exact H|]. split; [apply (Hraise ValueError H)|].
  apply Hover. split; [reflexivity|].
  exists stored_huge, (PyInt (2 ^ 1024)).
  split; [reflexivity | split; [reflexivity | vm_compute; reflexivity]].
Defined.

(** X13.  The mode after a start-up that returns: a configured initial
    mode wins; without one a non-empty stored state string gives the mode
    of that value, whichever HVAC mode it is; with neither the mode is
    OFF.  The mode is never left undefined. *)
Theorem startup_hvac_mode (s : ACRemoteControl) (old_state : option State) :
  outcome (async_added_to_hass old_state s) = Returned tt ->
  let f := final (async_added_to_hass old_state s) in
  (forall m, _hvac_mode s = Some m -> _hvac_mode f = Some m) /\
  (_hvac_mode s = None ->
   forall old, old_state = Some old -> state old <> "" ->
               exists m, HVACMode_value m = state old /\
                         _hvac_mode f = Some m) /\
  (_hvac_mode s = None ->
   old_state = None \/ (exists old, old_state = Some old /\ state old = "") ->
   _hvac_mode f = Some HVACMode_OFF) /\
  _hvac_mode f <> None.
Proof.
  cbv zeta. destruct (added_to_hass_run old_state s) as [tr Heq].
  cbv zeta in Heq. rewrite Heq.
  destruct (startup_target s old_state) as [t0|]; [|discriminate].
  destruct (startup_mode s old_state) as [m0|] eqn:Hmode;
    [|discriminate]. intros _. cbn [final].
  change (_hvac_mode (set_last_state _ (set_hvac_mode (Some m0) _)))
    with (Some m0).
  unfold startup_mode in Hmode. repeat split.
  - intros m Hm. rewrite Hm in Hmode. exact (eq_sym Hmode).
  - intros Hm old -> Hne. rewrite Hm in Hmode.
    destruct (String.eqb_spec (state old) ""); [contradiction|].
    exists m0. split; [apply HVACMode_of_value_spec; exact Hmode | reflexivity].
  - intros Hm [-> | (old & -> & He)]; rewrite Hm in Hmode.
    + exact (eq_sym Hmode).
    + rewrite He in Hmode. exact (eq_sym Hmode).
  - discriminate.
Qed.

Lemma startup_hvac_mode_witness :
  (exists m, HVACMode_value m = "cool" /\
             _hvac_mode (final (async_added_to_hass (Some stored_cool_eco)
                                  demo_new)) = Some m)
  /\ _hvac_mode (final (async_added_to_hass None demo_new))
     = Some HVACMode_OFF.
Proof.
  split.
  - apply (proj1 (proj2 (startup_hvac_mode demo_new (Some stored_cool_eco)
                           eq_refl))
             eq_refl stored_cool_eco); [reflexivity | discriminate].
  - apply (proj1 (proj2 (proj2 (startup_hvac_mode demo_new None eq_refl)))
             eq_refl).
    left. reflexivity.
Defined.

(** X14.  A preset restored at start-up has no temperature saved for it
    by the run before: the stored preset, when it is one of the table, is
    put back on (the stored temperature, if it is needed, converting), and
    going to "none" afterwards sets the target to what the constructor
    saved, the configured target temperature when it is given and not
    zero, and the temperature of the first preset of the table
    otherwise. *)
Theorem restored_preset_returns_to_constructor_value
    (name : string) (min_temp max_temp target_temp : option Temperature)
    (ac_mode : option bool) (min_cycle_duration keep_alive : option timedelta)
    (initial_hvac_mode : option HVACMode)
    (presets : list (string * Temperature))
    (rest_url username password : string) (now : datetime)
    (old : State) (p : string) (v : Temperature) (env : Env) :
  let s0 := __init__ name min_temp max_temp target_temp ac_mode
              min_cycle_duration keep_alive initial_hvac_mode presets
              rest_url username password now in
  attr_preset_mode old = Some p -> p <> PRESET_NONE ->
  dict_get p presets = Some v ->
  (target_temp = None ->
   forall n, attr_temperature old = Some n -> float n <> None) ->
  let s := final (async_added_to_hass (Some old) s0) in
  let s' := final (async_set_preset_mode PRESET_NONE env s) in
  _attr_preset_mode s = p /\
  _target_temp s' = (if temp_truthy target_temp then target_temp
                     else hd_error (dict_values presets)) /\
  _attr_preset_mode s' = PRESET_NONE.
Proof.
  intros s0 Hp Hnone Hget Hconv. cbv zeta.
  assert (Hc0 : preset_modes_consistent s0)
    by apply init_preset_modes_consistent.
  assert (Htarget : exists t0, startup_target s0 (Some old) = Some t0).
  { destruct (startup_target s0 (Some old)) as [t0|] eqn:Ht; [eauto|].
    exfalso. revert Ht. apply startup_target_converts.
    intros Hnone' old' n' Ho Hn. injection Ho as <-.
    apply (Hconv Hnone' n' Hn). }
  destruct Htarget as [t0 Htarget].
  assert (Hin : str_in p (preset_modes s0) = true)
    by (apply (consistent_named_in s0 p v Hc0); exact Hget).
  destruct (added_to_hass_run (Some old) s0) as [tr Heq].
  cbv zeta in Heq.
  assert (Hpre : startup_preset s0 (Some old) = p)
    by (unfold startup_preset; rewrite Hp, Hin; reflexivity).
  rewrite Hpre, Htarget in Heq.
  set (s := final (async_added_to_hass (Some old) s0)) in *.
  assert (Hs : _attr_preset_mode s = p /\
               _saved_target_temp s = _saved_target_temp s0 /\
               preset_modes_consistent s).
  { unfold s. rewrite Heq.
    destruct (startup_mode s0 (Some old)); cbn [final];
      repeat split; exact Hc0. }
  destruct Hs as (Hps & Hsv & Hc).
  split; [exact Hps|].
  destruct (preset_none_step s env Hc) as (Ht & _ & Hpn & _);
    [rewrite Hps; exact Hnone|].
  rewrite Ht, Hsv. split; [reflexivity | exact Hpn].
Qed.

Lemma restored_preset_returns_to_constructor_value_witness :
  _attr_preset_mode (final (async_added_to_hass (Some stored_cool_eco) demo_new))
  = PRESET_ECO
  /\ _target_temp
       (final (async_set_preset_mode PRESET_NONE at_5s
                 (final (async_added_to_hass (Some stored_cool_eco) demo_new))))
     = Some 22%Q
  /\ _attr_preset_mode
       (final (async_set_preset_mode PRESET_NONE at_5s
                 (final (async_added_to_hass (Some stored_cool_eco) demo_new))))
     = PRESET_NONE.
Proof.
  apply (restored_preset_returns_to_constructor_value "AC Remote" None None
           (Some 22%Q) (Some true) (Some 10000000) (Some 60000000) None
           [(PRESET_ECO, 18%Q)] "http://ac.local/control" "user" "secret"
           1000000 stored_cool_eco PRESET_ECO 18%Q at_5s).
  - reflexivity.
  - discriminate.
  - reflexivity.
  - discriminate.
Defined.

(** ** Platform set-up *)

Lemma presets_from_get floats names p :
  dict_get p (presets_from floats (map (fun q => (q, q ++ "_temp")) names))
  = if str_in p names then dict_get (p ++ "_temp") floats else None.
Proof.
  induction names as [|q names IH]; [reflexivity|].
  cbn [map presets_from str_in existsb]. fold (str_in p names).
  destruct (String.eqb_spec p q) as [->|Hne]; cbn [orb].
  - destruct (dict_get (q ++ "_temp") floats) as [t|] eqn:Hq.
    + cbn [dict_get]. rewrite String.eqb_refl. reflexivity.
    + rewrite IH. destruct (str_in q names); reflexivity.
  - destruct (dict_get (q ++ "_temp") floats) as [t|]; [|exact IH].
    cbn [dict_get]. rewrite (proj2 (String.eqb_neq _ _) Hne). exact IH.
Qed.

Lemma presets_from_keys_incl floats items k :
  In k (dict_keys (presets_from floats items)) -> In k (map fst items).
Proof.
  induction items as [|[key value] items IH]; [contradiction|].
  cbn [presets_from map fst].
  destruct (dict_get value floats); cbn; intuition.
Qed.

Lemma presets_from_keys_nodup floats items :
  NoDup (map fst items) -> NoDup (dict_keys (presets_from floats items)).
Proof.
  induction items as [|[key value] items IH]; intros Hnd; [constructor|].
  cbn [map fst] in Hnd. inversion Hnd as [|x l Hnot Hnd']; subst.
  cbn [presets_from]. destruct (dict_get value floats); [|auto].
  cbn. constructor; [|auto].
  intros Hin. apply Hnot. apply (presets_from_keys_incl floats). exact Hin.
Qed.

Lemma PRESET_NAMES_nodup : NoDup (PRESET_NAMES).
Proof.
  unfold PRESET_NAMES.
  repeat constructor; cbn; intuition discriminate.
Qed.

Lemma CONF_PRESETS_keys : map fst CONF_PRESETS = PRESET_NAMES.
Proof. reflexivity. Qed.

(** X15.  The preset table the platform builds from a configuration:
    looking up a preset name gives the configured value of its
    [<name>_temp] key when the name is one of the six the platform knows,
    and nothing for any other name, whatever else the configuration
    holds. *)
Theorem setup_presets_lookup (config : Config) (now : datetime) (p : string) :
  dict_get p (_presets (async_setup_platform config now))
  = if str_in p PRESET_NAMES
    then dict_get (p ++ "_temp") (conf_floats config)
    else None.
Proof.
  unfold async_setup_platform, CONF_PRESETS. cbn [__init__ _presets].
  apply presets_from_get.
Qed.

(** X16.  The preset modes of the entity the platform sets up have no
    duplicates, and a name passes the membership test of
    [async_set_preset_mode] exactly when it is "none" or one of the six
    known presets with its [<name>_temp] key configured. *)
Theorem setup_preset_modes (config : Config) (now : datetime) :
  let e := async_setup_platform config now in
  NoDup (preset_modes e) /\
  (forall p : string,
      str_in p (preset_modes e) = true <->
      p = PRESET_NONE \/
      (In p PRESET_NAMES /\ dict_get (p ++ "_temp") (conf_floats config) <> None)).
Proof.
  cbv zeta.
  pose proof (init_preset_modes_consistent (conf_name config)
                (dict_get CONF_MIN_TEMP (conf_floats config))
                (dict_get CONF_MAX_TEMP (conf_floats config))
                (dict_get CONF_TARGET_TEMP (conf_floats config))
                (conf_ac_mode config) (conf_min_cycle_duration config)
                (conf_keep_alive config) (conf_initial_hvac_mode config)
                (presets_from (conf_floats config) CONF_PRESETS)
                (conf_rest_url config) (conf_rest_username config)
                (conf_rest_password config) now) as Hc.
  fold (async_setup_platform config now) in Hc.
  unfold preset_modes_consistent in Hc. rewrite Hc.
  assert (Hkeys : forall p,
             In p (dict_keys (_presets (async_setup_platform config now))) <->
             In p PRESET_NAMES
             /\ dict_get (p ++ "_temp") (conf_floats config) <> None).
  { intros p. split.
    - intros Hin. destruct (in_keys_dict_get _ _ Hin) as [v Hv].
      rewrite setup_presets_lookup in Hv.
      destruct (str_in p PRESET_NAMES) eqn:Hn; [|discriminate].
      split; [apply str_in_spec; exact Hn | congruence].
    - intros [Hn Hv].
      destruct (dict_get p (_presets (async_setup_platform config now)))
        as [v|] eqn:Hg; [apply (dict_get_in_keys _ _ _ Hg)|].
      rewrite setup_presets_lookup, (proj2 (str_in_spec _ _) Hn) in Hg.
      contradiction. }
  split.
  - constructor.
    + rewrite Hkeys. intros [Hn _]. revert Hn. unfold PRESET_NAMES. cbn.
      intuition discriminate.
    + apply presets_from_keys_nodup. rewrite CONF_PRESETS_keys.
      apply PRESET_NAMES_nodup.
  - intros p. rewrite str_in_spec. cbn [In]. rewrite Hkeys.
    split; intros [H|H]; auto.
Qed.

Lemma setup_presets_lookup_example :
  dict_get PRESET_ECO (_presets (async_setup_platform demo_config 1000000))
  = Some 18%Q
  /\ dict_get PRESET_HOME (_presets (async_setup_platform demo_config 1000000))
     = None
  /\ dict_get "target" (_presets (async_setup_platform demo_config 1000000))
     = None.
Proof. repeat split. Qed.

(** ** Where the requests go *)

Lemma reeval_posts_to time force env s :
  Forall (is_post_to (_rest_url s) (_username s) (_password s))
    (effects (_async_control_heating time force env s)).
Proof.
  rewrite reeval_eq. unfold activation_log, send_effects.
  destruct (negb (_active s) && is_None (_target_temp s)); [constructor|].
  destruct (gated time force env s), (activates s), (post_ok env);
    try (destruct (_last_state s) as [last|];
         [destruct (ACState_eqb last (cur_state s))|]);
    cbn [effects app]; repeat constructor.
Qed.

Lemma then_notify_forall Q pre r :
  Forall Q pre -> Forall Q (effects r) -> Q WriteHaState ->
  Forall Q (effects (then_notify pre r)).
Proof.
  intros Hpre Hr Hw. unfold then_notify.
  destruct (outcome r); cbn [effects]; repeat (apply Forall_app; split);
    auto.
Qed.

Lemma call_posts_to c env s :
  Forall (is_post_to (_rest_url s) (_username s) (_password s))
    (effects (call c env s)).
Proof.
  destruct c as [old|m|t|p|now]; cbn [call].
  - eapply Forall_impl; [|apply added_to_hass_emits_no_post].
    intros [] H; cbn in *; tauto.
  - rewrite set_hvac_mode_eq.
    destruct m; try (repeat constructor);
      (apply then_notify_forall; [constructor | | exact I]);
      apply (reeval_posts_to None true env (set_hvac_mode _ s)).
  - rewrite set_temperature_eq. destruct t as [t|]; [|constructor].
    apply then_notify_forall; [constructor | | exact I].
    apply (reeval_posts_to None true env (set_target_temp (Some t) s)).
  - rewrite set_preset_mode_eq. cbv zeta.
    destruct (negb (str_in p (preset_modes s))); [repeat constructor|].
    destruct (String.eqb p (_attr_preset_mode s)); [repeat constructor|].
    destruct (String.eqb p PRESET_NONE).
    + apply then_notify_forall; [repeat constructor | | exact I].
      apply (reeval_posts_to None false env
               (set_target_temp _ (set_attr_preset_mode PRESET_NONE s))).
    + destruct (dict_get p (_presets s)) as [v|]; [|repeat constructor].
      apply then_notify_forall; [repeat constructor | | exact I].
      destruct (String.eqb (_attr_preset_mode s) PRESET_NONE).
      * apply (reeval_posts_to None false env
                 (set_target_temp (Some v)
                    (set_attr_preset_mode p
                       (set_saved_target_temp (_target_temp s) s)))).
      * apply (reeval_posts_to None false env
                 (set_target_temp (Some v) (set_attr_preset_mode p s))).
  - apply reeval_posts_to.
Qed.

Lemma call_keeps_endpoint c env (url user password : string) :
  keeps (fun x => _rest_url x = url /\ _username x = user
                  /\ _password x = password) (call c env).
Proof. apply keeps_call; intros; assumption. Qed.

(** X17.  Every request of any run of calls goes to the URL the entity was
    constructed with, under the user name and password it was constructed
    with; no call changes them. *)
Theorem requests_go_to_the_configured_endpoint
    (cs : list (Call * Env)) (s : ACRemoteControl) :
  Forall (is_post_to (_rest_url s) (_username s) (_password s))
    (snd (run_calls cs s)) /\
  _rest_url (fst (run_calls cs s)) = _rest_url s /\
  _username (fst (run_calls cs s)) = _username s /\
  _password (fst (run_calls cs s)) = _password s.
Proof.
  revert s. induction cs as [|[c env] cs IH]; intros s;
    [repeat split; constructor|].
  rewrite run_calls_cons. cbn [fst snd].
  destruct (call_keeps_endpoint c env (_rest_url s) (_username s)
              (_password s) s) as (Hu & Hn & Hp); [repeat split|].
  destruct (IH (final (call c env s))) as (Hall & Hu' & Hn' & Hp').
  rewrite Hu, Hn, Hp in Hall.
  repeat split; try congruence.
  apply Forall_app. split; [apply call_posts_to | exact Hall].
Qed.

(** ** The forced setters *)

Lemma then_notify_notifies r :
  ~ In WriteHaState (effects r) ->
  (In WriteHaState (effects (then_notify [] r)) <-> outcome r = Returned tt).
Proof.
  intros Hn. unfold then_notify.
  destruct (outcome r) as [[]|e]; cbn [effects app].
  - split; [reflexivity|]. intros _. apply in_or_app. right. left. reflexivity.
  - split; [contradiction | discriminate].
Qed.

(** X18.  For each of the modes HEAT, COOL and OFF, [async_set_hvac_mode]
    stores the mode whatever happens to the command (held back, failed or
    raising) and whether or not the mode is among the entity's
    [hvac_modes]; it leaves the target temperature and the preset alone,
    and it notifies the host exactly when the re-evaluation did not
    raise. *)
Theorem set_hvac_mode_stores_the_mode
    (m : HVACMode) (env : Env) (s : ACRemoteControl) :
  m = HVACMode_HEAT \/ m = HVACMode_COOL \/ m = HVACMode_OFF ->
  let r := async_set_hvac_mode m env s in
  _hvac_mode (final r) = Some m /\
  _target_temp (final r) = _target_temp s /\
  _attr_preset_mode (final r) = _attr_preset_mode s /\
  (In WriteHaState (effects r) <-> outcome r = Returned tt).
Proof.
  intros Hm. cbv zeta.
  assert (Hk : keeps (fun x => _hvac_mode x = Some m)
                 (_async_control_heating None true env))
    by (apply keeps_control_heating; intros; assumption).
  destruct (call_preset_attrs (SetHvacMode m) env s I)
    as (Ht & _ & Hp & _).
  cbn [call] in Ht, Hp.
  destruct Hm as [-> | [-> | ->]]; cbn [prepared fst] in Ht, Hp;
    (split; [rewrite set_hvac_mode_eq, final_then_notify;
             apply Hk; reflexivity|]);
    (split; [exact Ht|]); (split; [exact Hp|]);
    rewrite set_hvac_mode_eq, outcome_then_notify;
    apply then_notify_notifies, reeval_never_notifies.
Qed.

Lemma set_hvac_mode_stores_the_mode_witness :
  _hvac_mode (final (async_set_hvac_mode HVACMode_COOL at_5s
                       (set_target_temp (Some 23%Q) demo)))
  = Some HVACMode_COOL
  /\ posts (effects (async_set_hvac_mode HVACMode_COOL at_5s
                       (set_target_temp (Some 23%Q) demo))) = [].
Proof.
  split; [|reflexivity].
  apply (set_hvac_mode_stores_the_mode HVACMode_COOL at_5s
           (set_target_temp (Some 23%Q) demo)).
  right. left. reflexivity.
Defined.

(** X19.  [async_set_temperature] without a temperature does nothing at
    all; with one it stores it as the target whatever happens to the
    command, leaves the mode, the preset and the saved temperature alone,
    and notifies the host exactly when the re-evaluation did not raise. *)
Theorem set_temperature_stores_the_target
    (env : Env) (s : ACRemoteControl) :
  async_set_temperature None env s = mkRun (Returned tt) s [] /\
  (forall t : Temperature,
      let r := async_set_temperature (Some t) env s in
      _target_temp (final r) = Some t /\
      _hvac_mode (final r) = _hvac_mode s /\
      _attr_preset_mode (final r) = _attr_preset_mode s /\
      _saved_target_temp (final r) = _saved_target_temp s /\
      (In WriteHaState (effects r) <-> outcome r = Returned tt)).
Proof.
  split; [reflexivity|]. intros t. cbv zeta.
  destruct (temperature_step s t env) as (Ht & Hs & Hp & _).
  assert (Hk : keeps (fun x => _hvac_mode x = _hvac_mode s)
                 (_async_control_heating None true env))
    by (apply keeps_control_heating; intros; assumption).
  split; [exact Ht|].
  split; [rewrite set_temperature_eq, final_then_notify; apply Hk;
          reflexivity|].
  split; [exact Hp|]. split; [exact Hs|].
  rewrite set_temperature_eq, outcome_then_notify.
  apply then_notify_notifies, reeval_never_notifies.
Qed.

Lemma set_temperature_stores_the_target_witness :
  _target_temp (final (async_set_temperature (Some 23%Q) at_5s demo))
  = Some 23%Q
  /\ posts (effects (async_set_temperature (Some 23%Q) at_5s demo)) = [].
Proof.
  split; [|reflexivity].
  apply (proj2 (set_temperature_stores_the_target at_5s demo) 23%Q).
Defined.

(** ** The minimum cycle and the other triggers *)

(** X20.  A temperature change held back by the minimum cycle is not
    lost: the setter returns without a request but with the target
    stored, and the next keep-alive tick posts it, records it as sent and
    restarts the clock. *)
Theorem held_back_change_is_sent_by_next_tick
    (s : ACRemoteControl) (last0 : ACState) (D : timedelta)
    (t : Temperature) (env : Env) (now : datetime) (env' : Env) :
  _last_state s = Some last0 ->
  min_cycle_duration s = Some D -> D <> 0 -> elapsed env s <= D ->
  ACState_eqb last0 (mkACState (Some t) (hvac_mode s)) = false ->
  let r1 := async_set_temperature (Some t) env s in
  let r2 := keep_alive_tick now env' (final r1) in
  outcome r1 = Returned tt /\ posts (effects r1) = [] /\
  _target_temp (final r1) = Some t /\
  (exists p, posts (effects r2) = [p] /\ pl_temperature p = Some t) /\
  _last_state (final r2) = Some (mkACState (Some t) (hvac_mode s)) /\
  _last_control_action_time (final r2) = now_sent env'.
Proof.
  intros Hl Hd Hnz He Hne. cbv zeta.
  rewrite set_temperature_eq, outcome_then_notify, final_then_notify,
    posts_then_notify.
  set (x := set_target_temp (Some t) s).
  assert (Hdx : min_cycle_duration x = Some D) by exact Hd.
  assert (Hex : elapsed env x <= D) by exact He.
  destruct (reeval_gated env x D Hdx Hnz Hex) as (Ho & Hp & Hf).
  rewrite Ho, Hp. split; [reflexivity|]. split; [reflexivity|].
  assert (Hsend : forall y,
             y = x \/ y = activated x ->
             _target_temp y = Some t /\
             (exists p, posts (effects (keep_alive_tick now env' y)) = [p]
                        /\ pl_temperature p = Some t) /\
             _last_state (final (keep_alive_tick now env' y))
             = Some (mkACState (Some t) (hvac_mode s)) /\
             _last_control_action_time (final (keep_alive_tick now env' y))
             = now_sent env').
  { intros y Hy.
    assert (Hty : _target_temp y = Some t)
      by (destruct Hy as [-> | ->]; [reflexivity|];
          unfold activated; destruct (activates x); reflexivity).
    assert (Hcy : cur_state y = mkACState (Some t) (hvac_mode s))
      by (destruct Hy as [-> | ->]; rewrite ?activated_cur_state;
          reflexivity).
    assert (Hly : _last_state y = Some last0)
      by (destruct Hy as [-> | ->]; rewrite ?activated_last_state; exact Hl).
    unfold keep_alive_tick.
    destruct (reeval_sends (Some now) false env' y last0
                (gated_unforced _ _ _)) as (_ & Hp2 & Hf2).
    - right. rewrite Hty. discriminate.
    - exact Hly.
    - rewrite Hcy. exact Hne.
    - rewrite Hp2, Hf2. split; [exact Hty|]. split.
      + eexists. split; [reflexivity|]. exact Hty.
      + rewrite sent_state_last_state, activated_cur_state, Hcy.
        split; reflexivity. }
  apply Hsend. exact Hf.
Qed.

Lemma held_back_change_is_sent_by_next_tick_witness :
  posts (effects (async_set_temperature (Some 23%Q) at_5s demo)) = []
  /\ exists p,
      posts (effects (keep_alive_tick 61000000 at_61s
                        (final (async_set_temperature (Some 23%Q) at_5s demo))))
      = [p]
      /\ pl_temperature p = Some 23%Q.
Proof.
  destruct (held_back_change_is_sent_by_next_tick demo
              (mkACState (Some 22%Q) (Some HVACMode_OFF)) 10000000 23%Q
              at_5s 61000000 at_61s)
    as (_ & Hp & _ & Hq & _).
  - reflexivity.
  - reflexivity.
  - discriminate.
  - cbn. lia.
  - reflexivity.
  - split; [exact Hp | exact Hq].
Defined.

Lemma call_keeps_min_cycle c env (d : option timedelta) :
  keeps (fun x => min_cycle_duration x = d) (call c env).
Proof. apply keeps_call; intros; assumption. Qed.

(** X21.  Every request restarts the minimum cycle, whoever caused it: a
    runtime call that posts (a keep-alive tick and a preset change
    included) sets the last action time to the clock reading after its
    request, and a forced setter called no more than [D] after that
    reading posts nothing. *)
Theorem any_request_restarts_the_min_cycle
    (s : ACRemoteControl) (c : Call) (env : Env) (D : timedelta)
    (env2 : Env) :
  runtime c -> min_cycle_duration s = Some D -> D <> 0 ->
  posts (effects (call c env s)) <> [] ->
  now_gate env2 - now_sent env <= D ->
  let s' := final (call c env s) in
  _last_control_action_time s' = now_sent env /\
  (forall t, posts (effects (async_set_temperature t env2 s')) = []) /\
  (forall m, posts (effects (async_set_hvac_mode m env2 s')) = []).
Proof.
  intros Hr Hd Hnz Hp He. cbv zeta.
  pose proof (call_keeps_min_cycle c env (Some D) s Hd) as Hd'.
  assert (Ht : _last_control_action_time (final (call c env s))
               = now_sent env).
  { destruct (call_summary c env s Hr)
      as [(Hnil & _) | (l0 & x & _ & _ & _ & ->)];
      [contradiction | reflexivity]. }
  set (s' := final (call c env s)) in *.
  assert (Hsilent : forall y,
             min_cycle_duration y = Some D ->
             _last_control_action_time y = now_sent env ->
             posts (effects (_async_control_heating None true env2 y)) = []).
  { intros y Hy Hty. apply (reeval_gated env2 y D Hy Hnz).
    unfold elapsed. rewrite Hty. exact He. }
  split; [exact Ht|]. split.
  - intros [t|]; [|reflexivity].
    unfold async_set_temperature. rewrite forced_setter_posts.
    apply Hsilent; assumption.
  - intros m. unfold async_set_hvac_mode.
    destruct m; cbn [HVACMode_eqb]; try reflexivity;
      rewrite forced_setter_posts; apply Hsilent; assumption.
Qed.

Lemma any_request_restarts_the_min_cycle_witness :
  _last_control_action_time
    (final (call (KeepAlive 61000000) at_61s demo_pending)) = 61000001
  /\ posts (effects (async_set_temperature (Some 25%Q)
                       (mkEnv 62000000 true 62000001)
                       (final (call (KeepAlive 61000000) at_61s demo_pending))))
     = [].
Proof.
  destruct (any_request_restarts_the_min_cycle demo_pending
              (KeepAlive 61000000) at_61s 10000000
              (mkEnv 62000000 true 62000001))
    as (Ht & Hs & _).
  - exact I.
  - reflexivity.
  - discriminate.
  - discriminate.
  - cbn. lia.
  - split; [exact Ht | apply (Hs (Some 25%Q))].
Defined.

(** X22.  The minimum-cycle check concerns forced calls without a time
    marker only and only a non-zero duration: with a time marker, or with
    no duration or a zero one configured, a forced re-evaluation is the
    unforced one; and with exactly the duration elapsed the command is
    still held back. *)
Theorem min_cycle_check_scope (s : ACRemoteControl) (env : Env) :
  (forall (now : datetime) (force : bool),
      _async_control_heating (Some now) force env s
      = _async_control_heating (Some now) false env s) /\
  (min_cycle_duration s = None \/ min_cycle_duration s = Some 0 ->
   forall time : option datetime,
     _async_control_heating time true env s
     = _async_control_heating time false env s) /\
  (forall D : timedelta,
      min_cycle_duration s = Some D -> D <> 0 -> elapsed env s = D ->
      posts (effects (_async_control_heating None true env s)) = []).
Proof.
  split; [|split].
  - intros now force. rewrite !reeval_eq.
    replace (gated (Some now) force env s) with false
      by (unfold gated; destruct force; reflexivity).
    reflexivity.
  - intros Hd time. rewrite !reeval_eq.
    replace (gated time true env s) with false; [reflexivity|].
    unfold gated. destruct Hd as [-> | ->];
      [apply eq_sym, andb_false_r|].
    cbn. apply eq_sym, andb_false_r.
  - intros D Hd Hnz He.
    apply (reeval_gated env s D Hd Hnz). lia.
Qed.

Lemma min_cycle_check_scope_witness :
  _async_control_heating None true at_5s
    (set_target_temp (Some 23%Q)
       (final (async_added_to_hass None
                 (__init__ "AC Remote" None None (Some 22%Q) (Some true)
                    (Some 0) None None [] "http://ac.local/control" "user"
                    "secret" 1000000))))
  = _async_control_heating None false at_5s
      (set_target_temp (Some 23%Q)
         (final (async_added_to_hass None
                   (__init__ "AC Remote" None None (Some 22%Q) (Some true)
                      (Some 0) None None [] "http://ac.local/control" "user"
                      "secret" 1000000))))
  /\ posts (effects (_async_control_heating None true
                       (mkEnv 11000000 true 11000001) demo_pending)) = [].
Proof.
  split.
  - apply (proj1 (proj2 (min_cycle_check_scope _ at_5s))).
    right. reflexivity.
  - apply (proj2 (proj2 (min_cycle_check_scope demo_pending
                           (mkEnv 11000000 true 11000001))) 10000000).
    + reflexivity.
    + discriminate.
    + reflexivity.
Defined.

(** X23.  The reported action follows the mode attribute, not the device:
    when the last send succeeded and a forced mode change is held back by
    the minimum cycle, nothing is sent and [hvac_action] already reports
    the action of the new mode. *)
Theorem reported_action_runs_ahead_when_held_back
    (s : ACRemoteControl) (D : timedelta) (env : Env) :
  _is_last_send_succeed s = true ->
  min_cycle_duration s = Some D -> D <> 0 -> elapsed env s <= D ->
  (let r := async_set_hvac_mode HVACMode_HEAT env s in
   posts (effects r) = [] /\ _last_state (final r) = _last_state s /\
   hvac_action (final r) = HVACAction_HEATING) /\
  (let r := async_set_hvac_mode HVACMode_COOL env s in
   posts (effects r) = [] /\ _last_state (final r) = _last_state s /\
   hvac_action (final r) = HVACAction_COOLING).
Proof.
  intros Hok Hd Hnz He.
  assert (H : forall m a,
             hvac_action
               (set_is_last_send_succeed true (set_hvac_mode (Some m) s)) = a ->
             let x := set_hvac_mode (Some m) s in
             let r := _async_control_heating None true env x in
             posts (effects r) = [] /\ _last_state (final r) = _last_state s
             /\ hvac_action (final r) = a).
  { intros m a Ha x r.
    assert (Hdx : min_cycle_duration x = Some D) by exact Hd.
    assert (Hex : elapsed env x <= D) by exact He.
    destruct (reeval_gated env x D Hdx Hnz Hex) as (_ & Hp & Hf).
    split; [exact Hp|].
    assert (Hact : forall y, y = x \/ y = activated x ->
                             _last_state y = _last_state s
                             /\ hvac_action y = a).
    { intros y [-> | ->].
      - split; [reflexivity|]. rewrite <- Ha. unfold hvac_action.
        cbn [set_hvac_mode set_is_last_send_succeed _is_last_send_succeed
             _hvac_mode x]. rewrite Hok. reflexivity.
      - rewrite activated_last_state. split; [reflexivity|].
        rewrite <- Ha. unfold activated, hvac_action.
        destruct (activates x);
          cbn [set_hvac_mode set_is_last_send_succeed set_active
               _is_last_send_succeed _hvac_mode x];
          rewrite Hok; reflexivity. }
    apply Hact. exact Hf. }
  split; cbv zeta; rewrite set_hvac_mode_eq, posts_then_notify,
    final_then_notify; cbn [posts app]; apply H; reflexivity.
Qed.

Lemma reported_action_runs_ahead_when_held_back_witness :
  posts (effects (async_set_hvac_mode HVACMode_HEAT at_5s
                    (set_is_last_send_succeed true demo))) = []
  /\ hvac_action (final (async_set_hvac_mode HVACMode_HEAT at_5s
                           (set_is_last_send_succeed true demo)))
     = HVACAction_HEATING.
Proof.
  destruct (reported_action_runs_ahead_when_held_back
              (set_is_last_send_succeed true demo) 10000000 at_5s)
    as ((Hp & _ & Ha) & _).
  - reflexivity.
  - reflexivity.
  - discriminate.
  - cbn. lia.
  - split; [exact Hp | exact Ha].
Defined.
